(** * FundStockAnalysts: the tool executor of [planning/tool_executor.py]

    A shallow embedding of the [ToolExecutor] class: the registry of
    analysis tools, the dispatcher [execute], the two identifier
    extractors, the two batch handlers and the metadata reflector,
    followed by the properties of these operations.

    Python values are embedded as follows.
    - A [str] is the list of its Unicode code points ([pystr]); literals
      of the source are written as UTF-8 text and decoded by [u8].
    - A Python object that the code only inspects through [str(..)] is a
      [pyobj].
    - A [dict] is a [gmap] over [pystr] keys, a [set] a [gset].
    - Code that calls out of the class (the analysis runner, akshare,
      dashscope, Streamlit's session state, the clock, the progress
      callback) runs in the monad [M]: it reads the answers of an
      [environment], appends every call to a chronological [trace] and
      either returns or raises. *)

From Stdlib Require Import ZArith NArith QArith List String Ascii Decimal Lia.
From stdpp Require Import gmap list sorting.

Set Default Proof Using "Type".

(* ===================================================================== *)
(** * Python strings and objects *)
(* ===================================================================== *)

Module Py.

(** A Python [str]: the sequence of its code points. *)
Definition pystr : Type := list N.

(** UTF-8 decoding of a byte sequence (well-formed input; a truncated
    sequence ends the text). *)
Fixpoint utf8_decode (bs : list N) : pystr :=
  match bs with
  | [] => []
  | b0 :: r0 =>
    if (b0 <? 128)%N then b0 :: utf8_decode r0
    else if (b0 <? 224)%N then
      match r0 with
      | b1 :: r1 => ((b0 - 192) * 64 + (b1 - 128))%N :: utf8_decode r1
      | _ => []
      end
    else if (b0 <? 240)%N then
      match r0 with
      | b1 :: b2 :: r2 =>
        ((b0 - 224) * 4096 + (b1 - 128) * 64 + (b2 - 128))%N :: utf8_decode r2
      | _ => []
      end
    else
      match r0 with
      | b1 :: b2 :: b3 :: r3 =>
        ((b0 - 240) * 262144 + (b1 - 128) * 4096 + (b2 - 128) * 64 + (b3 - 128))%N
          :: utf8_decode r3
      | _ => []
      end
  end.

(** A literal of the (UTF-8 encoded) source file. *)
Definition u8 (s : string) : pystr :=
  utf8_decode (map N_of_ascii (list_ascii_of_string s)).

(** [sep.join(parts)] *)
Fixpoint join (sep : pystr) (parts : list pystr) : pystr :=
  match parts with
  | [] => []
  | [p] => p
  | p :: rest => p ++ sep ++ join sep rest
  end.

(** [x in s] for two strings, as a proposition. *)
Definition contains (s x : pystr) : Prop :=
  exists pre post, s = pre ++ x ++ post.

(** Comparison of two strings, [a <= b]: lexicographic on code points. *)
Fixpoint str_leb (a b : pystr) : bool :=
  match a, b with
  | [], _ => true
  | _ :: _, [] => false
  | x :: a', y :: b' =>
    if (x <? y)%N then true else if (y <? x)%N then false else str_leb a' b'
  end.

Definition str_le (a b : pystr) : Prop := str_leb a b = true.
Definition str_lt (a b : pystr) : Prop := str_le a b /\ a <> b.

#[export] Instance str_le_dec a b : Decision (str_le a b).
Proof. unfold str_le. apply _. Defined.

(** [sorted(xs)] on a list of strings. *)
Definition sorted (xs : list pystr) : list pystr := merge_sort str_le xs.

(** Decimal digits of a number, most significant first. *)
Fixpoint uint_codes (d : Decimal.uint) : pystr :=
  match d with
  | Decimal.Nil => []
  | Decimal.D0 d' => 48%N :: uint_codes d'
  | Decimal.D1 d' => 49%N :: uint_codes d'
  | Decimal.D2 d' => 50%N :: uint_codes d'
  | Decimal.D3 d' => 51%N :: uint_codes d'
  | Decimal.D4 d' => 52%N :: uint_codes d'
  | Decimal.D5 d' => 53%N :: uint_codes d'
  | Decimal.D6 d' => 54%N :: uint_codes d'
  | Decimal.D7 d' => 55%N :: uint_codes d'
  | Decimal.D8 d' => 56%N :: uint_codes d'
  | Decimal.D9 d' => 57%N :: uint_codes d'
  end.

(** [str(n)] for a non-negative [int]. *)
Definition str_nat (n : nat) : pystr := uint_codes (Nat.to_uint n).

(** [str(z)] for an [int]. *)
Definition str_int (z : Z) : pystr :=
  match Z.to_int z with
  | Decimal.Pos d => uint_codes d
  | Decimal.Neg d => 45%N :: uint_codes d
  end.

(** A Python object as far as this code observes it: through [str(..)]
    and through its truth value. [PyOther s] is any further object that
    is not a list (a float, a dict, a nested list met as an element, an
    instance of a class), given by the text [str(..)] returns for it. *)
Inductive pyobj : Type :=
| PyNone
| PyBool (b : bool)
| PyInt (z : Z)
| PyStr (s : pystr)
| PyOther (s : pystr).

(** [str(x)] *)
Definition py_str (x : pyobj) : pystr :=
  match x with
  | PyNone => u8 "None"
  | PyBool true => u8 "True"
  | PyBool false => u8 "False"
  | PyInt z => str_int z
  | PyStr s => s
  | PyOther s => s
  end.

(** [s.replace(a, b)] for one-character [a] and [b]. *)
Definition replace_char (a b : N) (s : pystr) : pystr :=
  map (fun c => if (c =? a)%N then b else c) s.

Definition ascii_upper (c : N) : bool := (65 <=? c)%N && (c <=? 90)%N.
Definition ascii_lower (c : N) : bool := (97 <=? c)%N && (c <=? 122)%N.

(** [s.title()] on ASCII text (the only text this code titles): a letter
    that follows a letter is lowered, any other letter is raised. *)
Fixpoint title_from (after_letter : bool) (s : pystr) : pystr :=
  match s with
  | [] => []
  | c :: s' =>
    if ascii_upper c then
      (if after_letter then (c + 32)%N else c) :: title_from true s'
    else if ascii_lower c then
      (if after_letter then c else (c - 32)%N) :: title_from true s'
    else c :: title_from false s'
  end.

Definition title (s : pystr) : pystr := title_from false s.

End Py.

Export Py.

(* ===================================================================== *)
(** * The regular expression of the extractors *)
(* ===================================================================== *)

Module Re.

(** The tables of the Unicode character database that [re] consults for
    a [str] pattern. They belong to the interpreter, not to this
    repository: every operation below takes them as an argument. *)
Record unicode_db : Type := {
  isalpha : N -> bool;
  isdecimal : N -> bool;
  isdigit : N -> bool;
  isnumeric : N -> bool
}.

(** [\d] of a [str] pattern: a Unicode decimal digit. *)
Definition is_d (db : unicode_db) (c : N) : bool := isdecimal db c.

(** [\w] of a [str] pattern: alphanumeric, or the underscore. *)
Definition is_w (db : unicode_db) (c : N) : bool :=
  isalpha db c || isdecimal db c || isdigit db c || isnumeric db c || (c =? 95)%N.

Definition is_w_opt (db : unicode_db) (c : option N) : bool :=
  match c with
  | Some c => is_w db c
  | None => false
  end.

(** [\b] between the character before a position and the one at it
    ([None] at either end of the text). *)
Definition word_boundary (db : unicode_db) (before at_pos : option N) : bool :=
  xorb (is_w_opt db before) (is_w_opt db at_pos).

(** [\b\d{6}\b] tried at one position: [before] is the character that
    precedes it, [s] the text from it on. *)
Definition match_code (db : unicode_db) (before : option N) (s : pystr)
  : option pystr :=
  let m := take 6 s in
  if word_boundary db before (head s)
     && (length m =? 6)%nat
     && forallb (is_d db) m
     && word_boundary db (last m) (head (drop 6 s))
  then Some m else None.

(** The scan of [re.findall]: left to right, and after a match the
    search resumes behind it ([skip] counts the characters of the last
    match that are still to be passed). *)
Fixpoint findall_from (db : unicode_db) (before : option N) (skip : nat)
  (s : pystr) : list pystr :=
  match s with
  | [] => []
  | c :: s' =>
    match skip with
    | S k => findall_from db (Some c) k s'
    | O =>
      match match_code db before s with
      | Some m => m :: findall_from db (Some c) 5 s'
      | None => findall_from db (Some c) 0 s'
      end
    end
  end.

(** [re.findall(r"\b\d{6}\b", s)] *)
Definition findall_code (db : unicode_db) (s : pystr) : list pystr :=
  findall_from db None 0 s.

(** An excerpt of the Unicode database: the ASCII range in full, the
    digits of a few other scripts, the CJK unified ideographs. On the
    code points it lists it agrees with the interpreter's tables; it is
    used to evaluate the operations on concrete texts made of these. *)
Definition in_range (lo hi c : N) : bool := (lo <=? c)%N && (c <=? hi)%N.

Definition excerpt_decimal (c : N) : bool :=
  in_range 48 57 c            (* 0-9 *)
  || in_range 1632 1641 c     (* U+0660..0669 Arabic-Indic digits *)
  || in_range 2406 2415 c     (* U+0966..096F Devanagari digits *)
  || in_range 65296 65305 c.  (* U+FF10..FF19 fullwidth digits *)

Definition excerpt_alpha (c : N) : bool :=
  in_range 65 90 c || in_range 97 122 c
  || in_range 19968 40869 c.  (* U+4E00..9FA5 CJK unified ideographs *)

Definition unicode_excerpt : unicode_db :=
  {| isalpha := excerpt_alpha;
     isdecimal := excerpt_decimal;
     isdigit := excerpt_decimal;
     isnumeric := excerpt_decimal |}.

(** The digits [0]..[9] of ASCII. *)
Definition ascii_digit (c : N) : bool := in_range 48 57 c.

End Re.

Export Re.

(* ===================================================================== *)
(** * Calls out of the class *)
(* ===================================================================== *)

Module Effects.

(** An instance of [Exception], the class every [except] clause of the
    source names; [exn_str e] is [str(e)]. What lies outside that class
    ([KeyboardInterrupt], [SystemExit]) ends the process and is not a
    value of this type. *)
Record exn : Type := Exn { exn_str : pystr }.

(** How a call ends. *)
Inductive result (A : Type) : Type :=
| Return (a : A)
| Raise (e : exn).

Arguments Return {A} a.
Arguments Raise {A} e.

(** A callable passed in by the caller (the progress callback). *)
Record callable : Type := Callable { callable_id : nat }.

(** The keyword arguments of [run_stock_analysis]. *)
Record stock_args : Type := {
  stock_symbol : pystr;
  analysis_date : pystr;
  analysts : list pystr;
  research_depth : Z;
  llm_provider : pyobj;
  llm_model : pyobj;
  market_type : pystr
}.

(** What [run_stock_analysis] returns: a dict that may hold a ['state']
    dict of reports and a ['decision'] dict. *)
Record analysis_result : Type := {
  ar_state : option (gmap pystr pyobj);
  ar_decision : option (gmap pystr pyobj)
}.

(** The akshare tables [run_fund_analysis] asks for. *)
Inductive ak_table : Type :=
| fund_individual_basic_info_xq
| fund_rating_all
| fund_individual_achievement_xq
| fund_value_estimation_em
| fund_individual_analysis_xq
| fund_individual_profit_probability_xq
| fund_individual_detail_hold_xq
| fund_portfolio_industry_allocation_em
| fund_portfolio_hold_em.

(** One call out of the class, with its arguments. *)
Inductive event : Type :=
| EvConfigGet (key : pystr) (default : pyobj)
| EvToday
| EvProgress (cb : callable) (message : pystr) (progress : Q)
| EvRunStockAnalysis (args : stock_args)
| EvAkshare (table : ak_table) (symbol : pystr)
| EvSleep (seconds : nat)
| EvPrint (text : pystr)
| EvDashscope (model : pystr) (system_message user_prompt : pystr).

(** The calls made so far, oldest first. *)
Definition trace : Type := list event.

(** The world outside the class. Every answer may depend on all calls
    made before it. *)
Record environment : Type := {
  (** the interpreter's Unicode tables *)
  unicodedata : unicode_db;
  (** [st.session_state.llm_config.get(key, default)] *)
  llm_config_get : trace -> pystr -> pyobj -> result pyobj;
  (** [str(datetime.date.today())] *)
  date_today : trace -> pystr;
  (** [progress_callback(message, progress)] *)
  call_progress : trace -> callable -> pystr -> Q -> result unit;
  (** [run_stock_analysis] of [web.utils.analysis_runner], called with
      keyword arguments *)
  run_stock_analysis : trace -> stock_args -> result analysis_result;
  (** an akshare query, filtered and rendered with [to_string] *)
  akshare : trace -> ak_table -> pystr -> result pystr;
  (** [dashscope.Generation.call(..).output.choices[0].message.content] *)
  dashscope_content : trace -> pystr -> pystr -> pystr -> result pystr
}.

(** A computation that calls out of the class. *)
Definition M (A : Type) : Type := environment -> trace -> result A * trace.

Definition ret {A} (a : A) : M A := fun _ t => (Return a, t).

Definition raise {A} (e : exn) : M A := fun _ t => (Raise e, t).

Definition bind {A B} (m : M A) (k : A -> M B) : M B :=
  fun env t =>
    match m env t with
    | (Return a, t') => k a env t'
    | (Raise e, t') => (Raise e, t')
    end.

(** [try: m  except Exception as e: h(e)] *)
Definition try_except {A} (m : M A) (h : exn -> M A) : M A :=
  fun env t =>
    match m env t with
    | (Return a, t') => (Return a, t')
    | (Raise e, t') => h e env t'
    end.

(** Perform one call: log it and take the environment's answer. *)
Definition perform {A} (ev : event) (answer : environment -> trace -> result A)
  : M A :=
  fun env t => (answer env t, t ++ [ev]).

Definition get_unicodedata : M unicode_db :=
  fun env t => (Return (unicodedata env), t).

Declare Scope py_scope.
Delimit Scope py_scope with py.
Notation "x <- m ;; k" := (bind m (fun x => k))
  (at level 100, m at next level, right associativity) : py_scope.
Notation "m ;;; k" := (bind m (fun _ => k))
  (at level 100, right associativity) : py_scope.

Open Scope py_scope.

Definition session_llm_config_get (key : pystr) (default : pyobj) : M pyobj :=
  perform (EvConfigGet key default) (fun env t => llm_config_get env t key default).

Definition today : M pystr :=
  perform EvToday (fun env t => Return (date_today env t)).

Definition progress_callback_call (cb : callable) (message : pystr) (progress : Q)
  : M unit :=
  perform (EvProgress cb message progress)
          (fun env t => call_progress env t cb message progress).

Definition call_run_stock_analysis (args : stock_args) : M analysis_result :=
  perform (EvRunStockAnalysis args) (fun env t => run_stock_analysis env t args).

Definition ak (table : ak_table) (symbol : pystr) : M pystr :=
  perform (EvAkshare table symbol) (fun env t => akshare env t table symbol).

Definition time_sleep (seconds : nat) : M unit :=
  perform (EvSleep seconds) (fun _ _ => Return tt).

Definition print (text : pystr) : M unit :=
  perform (EvPrint text) (fun _ _ => Return tt).

Definition dashscope_generation (model system_message user_prompt : pystr)
  : M pystr :=
  perform (EvDashscope model system_message user_prompt)
          (fun env t => dashscope_content env t model system_message user_prompt).

(** [for i, x in enumerate(xs, i0): acc = body(i, x, acc)]; a [continue]
    in the source is an early return of the body. *)
Fixpoint for_enumerate {A Acc : Type} (i0 : nat) (xs : list A)
  (body : nat -> A -> Acc -> M Acc) (acc : Acc) : M Acc :=
  match xs with
  | [] => ret acc
  | x :: xs' =>
    acc' <- body i0 x acc ;;
    for_enumerate (S i0) xs' body acc'
  end.

End Effects.

Export Effects.

(* ===================================================================== *)
(** * [planning/tool_executor.py] *)
(* ===================================================================== *)

Module tool_executor.

(** The newline of the source's string escapes. *)
Definition nl : pystr := [10%N].

(** A value found in the [parameters] dict: a list, or anything else. *)
Inductive param_value : Type :=
| PList (items : list pyobj)
| PValue (v : pyobj).

(** The [parameters] argument: a dict, or any object that is none. *)
Inductive parameters_obj : Type :=
| NotADict
| Dict (d : gmap pystr param_value).

(** ** Identifier extraction *)

Definition _extract_stock_symbols (db : unicode_db)
  (parameters : parameters_obj) (step_content : pystr) : list pystr :=
  let candidates : list pystr := [] in
  let candidates :=
    match parameters with
    | Dict d =>
      match d !! u8 "stock_symbols" with
      | Some (PList items) => candidates ++ map py_str items
      | Some (PValue v) => candidates ++ [py_str v]
      | None => candidates
      end
    | NotADict => candidates
    end in
  let candidates :=
    match candidates, step_content with
    | [], _ :: _ => candidates ++ [step_content]
    | _, _ => candidates
    end in
  let valid_codes :=
    elements (list_to_set (findall_code db (join (u8 ",") candidates)) : gset pystr) in
  sorted valid_codes.

Definition _extract_fund_symbols (db : unicode_db)
  (parameters : parameters_obj) (step_content : pystr) : list pystr :=
  let candidates : list pystr := [] in
  let candidates :=
    match parameters with
    | Dict d =>
      match d !! u8 "fund_symbols" with
      | Some (PList items) => candidates ++ map py_str items
      | Some (PValue v) => candidates ++ [py_str v]
      | None => candidates
      end
    | NotADict => candidates
    end in
  let candidates :=
    match candidates, step_content with
    | [], _ :: _ => candidates ++ [step_content]
    | _, _ => candidates
    end in
  let valid_codes :=
    elements (list_to_set (findall_code db (join (u8 ",") candidates)) : gset pystr) in
  sorted valid_codes.

(** ** The stock tool *)

Definition report_types : list pystr :=
  [u8 "market_report"; u8 "fundamentals_report";
   u8 "sentiment_report"; u8 "news_report"].

(** The [raw_reports] list built from an analysis result. *)
Definition raw_reports_of (analysis_result : analysis_result) : list pystr :=
  match ar_state analysis_result with
  | Some state =>
    flat_map (fun report_type =>
      match state !! report_type with
      | Some report =>
        [u8 "#### " ++ title (replace_char 95 32 report_type) ++ nl ++ py_str report]
      | None => []
      end) report_types
  | None => []
  end.

(** The [decision_reasoning] text built from an analysis result. *)
Definition decision_reasoning_of (analysis_result : analysis_result) : pystr :=
  match ar_decision analysis_result with
  | Some decision =>
    match decision !! u8 "reasoning" with
    | Some reasoning => u8 "#### 核心决策结论" ++ nl ++ py_str reasoning
    | None => []
    end
  | None => []
  end.

Definition full_raw_report_of (analysis_result : analysis_result) : pystr :=
  join (nl ++ nl) (raw_reports_of analysis_result ++ [decision_reasoning_of analysis_result]).

(** The fragment appended for an analysis that returned. *)
Definition stock_success_fragment (code : pystr) (analysis_result : analysis_result)
  : pystr :=
  let full_raw_report := full_raw_report_of analysis_result in
  u8 "### 个股分析: " ++ code ++ nl
    ++ match full_raw_report with
       | [] => u8 "无分析结果"
       | _ :: _ => full_raw_report
       end.

(** The fragment appended for an analysis that raised. *)
Definition stock_failure_fragment (code : pystr) (e : exn) : pystr :=
  u8 "### 个股分析: " ++ code ++ nl ++ u8 "分析失败：" ++ exn_str e.

Definition stock_progress_message (code : pystr) (i total : nat) : pystr :=
  u8 "正在分析股票 " ++ code ++ u8 "（" ++ str_nat i ++ u8 "/" ++ str_nat total ++ u8 "）".

(** [i / total]: the quotient, of which the interpreter passes on the
    nearest float. *)
Definition progress_of (i total : nat) : Q := Z.of_nat i # Pos.of_nat total.

(** One turn of the loop of [execute_stock_analysis_tool]. *)
Definition stock_loop_body (progress_callback : option callable)
  (llm_provider llm_model : pyobj) (total : nat)
  (i : nat) (code : pystr) (all_analysis : list pystr) : M (list pystr) :=
  match progress_callback with
  | Some cb =>
    let progress := progress_of i total in
    progress_callback_call cb (stock_progress_message code i total) progress
  | None => ret tt
  end ;;;
  outcome <- try_except
    (date <- today ;;
     analysis_result <- call_run_stock_analysis
       {| stock_symbol := code;
          analysis_date := date;
          analysts := [u8 "fundamentals"];
          research_depth := 1;
          llm_provider := llm_provider;
          llm_model := llm_model;
          market_type := u8 "A股" |} ;;
     ret (inl analysis_result))
    (fun e => ret (inr e)) ;;
  match outcome with
  | inr e => ret (all_analysis ++ [stock_failure_fragment code e])
  | inl analysis_result =>
    ret (all_analysis ++ [stock_success_fragment code analysis_result])
  end.

Definition execute_stock_analysis_tool (parameters : parameters_obj)
  (step_content : pystr) (progress_callback : option callable) : M pystr :=
  db <- get_unicodedata ;;
  let stock_symbols := _extract_stock_symbols db parameters step_content in
  match stock_symbols with
  | [] => ret (u8 "错误：未找到有效的A股股票代码（需为6位数字），无法执行分析。")
  | _ :: _ =>
    llm_provider <- session_llm_config_get (u8 "llm_provider") (PyStr (u8 "dashscope")) ;;
    llm_model <- session_llm_config_get (u8 "llm_model") (PyStr (u8 "qwen-plus")) ;;
    let total := length stock_symbols in
    all_analysis <- for_enumerate 1 stock_symbols
      (stock_loop_body progress_callback llm_provider llm_model total) [] ;;
    ret (join (nl ++ nl) all_analysis)
  end.

(** ** The fund tool *)

(** One guarded block of [run_fund_analysis]: the table is appended to
    [result] under [heading], or the failure is under [failed]. *)
Definition fund_block (table : ak_table) (fund_symbol : pystr)
  (heading failed ending : pystr) (result : pystr) : M pystr :=
  try_except
    (text <- ak table fund_symbol ;;
     let result := result ++ heading ++ text ++ ending in
     time_sleep 1 ;;;
     ret result)
    (fun e => ret (result ++ failed ++ exn_str e ++ ending)).

Definition fund_system_message (fund_symbol : pystr) : pystr :=
  u8 "你是一位专业的基金基本面分析师。" ++ nl
  ++ u8 "任务：对（基金代码：" ++ fund_symbol ++ u8 "）进行全面基本面分析" ++ nl
  ++ u8 "📊 **强制要求：**" ++ nl
  ++ u8 "按以下框架输出结构化报告：" ++ nl ++ nl
  ++ u8 "### 一、基金产品基础分析" ++ nl
  ++ u8 "- **基金公司实力**：管理规模排名、权益投资能力评级、风控体系完善度" ++ nl
  ++ u8 "- **基金经理**：从业年限、历史年化回报、最大回撤控制能力（近3年）、投资风格稳定性" ++ nl
  ++ u8 "- **产品特性**：基金类型(股票/混合/债券)、运作方式(开放式/封闭式)、规模变动趋势(警惕＜1亿清盘风险)" ++ nl
  ++ u8 "- **费率结构**：管理费+托管费总成本、浮动费率机制(如有)、申购赎回费率" ++ nl ++ nl
  ++ u8 "### 二、风险收益特征分析" ++ nl
  ++ u8 "- **核心指标**：" ++ nl
  ++ u8 "  • 夏普比率(＞1为优)、卡玛比率(年化收益/最大回撤，＞0.5合格)" ++ nl
  ++ u8 "  • 波动率(同类排名后30%为佳)、下行捕获率(＜100%表明抗跌)" ++ nl
  ++ u8 "- **极端风险控制**：" ++ nl
  ++ u8 "  • 最大回撤率(数值绝对值越小越好)及修复时长" ++ nl
  ++ u8 "  • 股灾/熊市期间表现(如2022年回撤幅度 vs 沪深300)" ++ nl ++ nl
  ++ u8 "### 三、长期业绩评估" ++ nl
  ++ u8 "- **收益维度**：" ++ nl
  ++ u8 "  • 3年/5年年化收益率(需扣除费率)、超额收益(Alpha)" ++ nl
  ++ u8 "  • 业绩持续性：每年排名同类前50%的年份占比" ++ nl
  ++ u8 "- **基准对比**：" ++ nl
  ++ u8 "  • 滚动3年跑赢业绩比较基准的概率" ++ nl
  ++ u8 "  • 不同市场环境适应性(如2023成长牛 vs 2024价值修复行情表现)" ++ nl ++ nl
  ++ u8 "### 四、综合价值评估" ++ nl
  ++ u8 "- **持仓穿透估值**：" ++ nl
  ++ u8 "  • 股票部分：前十大重仓股PE/PB分位数(行业调整后)" ++ nl
  ++ u8 "  • 债券部分：信用债利差水平、利率债久期风险" ++ nl
  ++ u8 "- **组合性价比**：" ++ nl
  ++ u8 "  • 股债净资产比价(E/P - 10年国债收益率)" ++ nl
  ++ u8 "  • 场内基金需分析折溢价率(＞1%警惕高估)" ++ nl
  ++ u8 "- **绝对价值锚点**：给出合理净值区间依据：" ++ nl
  ++ u8 "  当前净值水平 vs 历史波动区间(30%分位以下为低估)" ++ nl ++ nl
  ++ u8 "### 五、投资决策建议" ++ nl
  ++ u8 "- **建议逻辑**：" ++ nl
  ++ u8 "  • 综合夏普比率＞1.2+卡玛比率＞0.7+净值处30%分位→'买入'" ++ nl
  ++ u8 "  • 规模激增(＞100亿)+重仓股估值＞70%分位→'减持'" ++ nl
  ++ u8 "- **强制输出**：中文操作建议(买入/增持/持有/减持/卖出)" ++ nl
  ++ u8 "🚫 **禁止事项**：" ++ nl
  ++ u8 "- 禁止假设数据" ++ nl
  ++ u8 "- 禁止使用英文建议(buy/sell/hold)" ++ nl.

Definition run_fund_analysis (fund_symbol : pystr) : M pystr :=
  let result := u8 "【基金代码】: " ++ fund_symbol ++ nl in
  result <- fund_block fund_individual_basic_info_xq fund_symbol
              (u8 "【基本数据】:" ++ nl) (u8 "【基本数据】获取失败: ") (nl ++ nl) result ;;
  result <- fund_block fund_rating_all fund_symbol
              (u8 "【基金评级】:" ++ nl) (u8 "【基金评级】获取失败: ") (nl ++ nl) result ;;
  result <- fund_block fund_individual_achievement_xq fund_symbol
              (u8 "【业绩表现】:" ++ nl) (u8 "【业绩表现】获取失败: ") (nl ++ nl) result ;;
  result <- fund_block fund_value_estimation_em fund_symbol
              (u8 "【净值估算】:" ++ nl) (u8 "【净值估算】获取失败: ") (nl ++ nl) result ;;
  result <- fund_block fund_individual_analysis_xq fund_symbol
              (u8 "【数据分析】:" ++ nl) (u8 "【数据分析】获取失败: ") (nl ++ nl) result ;;
  result <- fund_block fund_individual_profit_probability_xq fund_symbol
              (u8 "【盈利概率】:" ++ nl) (u8 "【盈利概率】获取失败: ") (nl ++ nl) result ;;
  result <- fund_block fund_individual_detail_hold_xq fund_symbol
              (u8 "【持仓资产比例】:" ++ nl) (u8 "【持仓资产比例】获取失败: ") (nl ++ nl) result ;;
  result <- fund_block fund_portfolio_industry_allocation_em fund_symbol
              (u8 "【行业配置】:" ++ nl) (u8 "【行业配置】获取失败: ") (nl ++ nl) result ;;
  result <- fund_block fund_portfolio_hold_em fund_symbol
              (u8 "【基金持仓】:" ++ nl) (u8 "【基金持仓】获取失败: ") nl result ;;
  print result ;;;
  let system_message := fund_system_message fund_symbol in
  let user_prompt :=
    u8 "你现在拥有以下基金的真实数据，请严格依赖真实数据（注意！每条数据必须强制利用到来进行分析），"
    ++ u8 "绝不编造其他数据，对（基金代码：" ++ fund_symbol
    ++ u8 "）进行全面分析，给出非常详细格式化的报告:" ++ nl in
  let user_prompt := user_prompt ++ result in
  content <- dashscope_generation (u8 "qwen-plus-latest") system_message user_prompt ;;
  print content ;;;
  ret content.

Definition fund_progress_message (code : pystr) (i total : nat) : pystr :=
  u8 "正在分析基金 " ++ code ++ u8 "（" ++ str_nat i ++ u8 "/" ++ str_nat total ++ u8 "）".

Definition fund_success_fragment (code analysis_result : pystr) : pystr :=
  u8 "### 基金分析: " ++ code ++ nl
    ++ match analysis_result with
       | [] => u8 "无分析结果"
       | _ :: _ => analysis_result
       end.

Definition fund_failure_fragment (code : pystr) (e : exn) : pystr :=
  u8 "### 基金分析: " ++ code ++ nl ++ u8 "分析失败：" ++ exn_str e.

(** One turn of the loop of [execute_fund_analysis_tool]. *)
Definition fund_loop_body (progress_callback : option callable) (total : nat)
  (i : nat) (code : pystr) (all_analysis : list pystr) : M (list pystr) :=
  match progress_callback with
  | Some cb =>
    let progress := progress_of i total in
    progress_callback_call cb (fund_progress_message code i total) progress
  | None => ret tt
  end ;;;
  outcome <- try_except
    (analysis_result <- run_fund_analysis code ;; ret (inl analysis_result))
    (fun e => ret (inr e)) ;;
  match outcome with
  | inr e => ret (all_analysis ++ [fund_failure_fragment code e])
  | inl analysis_result =>
    ret (all_analysis ++ [fund_success_fragment code analysis_result])
  end.

Definition execute_fund_analysis_tool (parameters : parameters_obj)
  (step_content : pystr) (progress_callback : option callable) : M pystr :=
  db <- get_unicodedata ;;
  let fund_symbols := _extract_fund_symbols db parameters step_content in
  match fund_symbols with
  | [] => ret (u8 "错误：未找到有效的基金代码（需为6位数字），无法执行分析。")
  | _ :: _ =>
    llm_provider <- session_llm_config_get (u8 "llm_provider") (PyStr (u8 "dashscope")) ;;
    llm_model <- session_llm_config_get (u8 "llm_model") (PyStr (u8 "qwen-plus")) ;;
    let total := length fund_symbols in
    all_analysis <- for_enumerate 1 fund_symbols
      (fund_loop_body progress_callback total) [] ;;
    ret (join (nl ++ nl) all_analysis)
  end.

(** ** Registry and dispatcher *)

(** A tool's execution method, as stored in the registry. *)
Definition tool_method : Type :=
  parameters_obj -> pystr -> option callable -> M pystr.

(** An instance of the class: its [tools] dict, in insertion order. *)
Record ToolExecutor : Type := { tools : list (pystr * tool_method) }.

(** [d[key]] on a dict kept in insertion order. *)
Fixpoint dict_get {V : Type} (d : list (pystr * V)) (key : pystr) : option V :=
  match d with
  | [] => None
  | (k, v) :: d' => if decide (k = key) then Some v else dict_get d' key
  end.

Definition __init__ : ToolExecutor :=
  {| tools := [ (u8 "个股股票分析工具", execute_stock_analysis_tool);
                (u8 "基金分析工具", execute_fund_analysis_tool) ] |}.

Definition get_available_tools (self : ToolExecutor) : list pystr :=
  map fst (tools self).

Definition execute (self : ToolExecutor) (tool_name : pystr)
  (parameters : parameters_obj) (step_content : pystr)
  (progress_callback : option callable) : M pystr :=
  match dict_get (tools self) tool_name with
  | None =>
    ret (u8 "错误：未知工具 '" ++ tool_name ++ u8 "'，无法执行。可用工具："
         ++ join (u8 ", ") (get_available_tools self))
  | Some tool =>
    try_except
      (tool parameters step_content progress_callback)
      (fun e => ret (u8 "执行工具 '" ++ tool_name ++ u8 "' 时发生错误: " ++ exn_str e))
  end.

(** ** Metadata reflection *)

(** An annotation: a class or alias, read through its [__name__] (an
    annotation without that attribute makes the reflector raise and is
    no value of this type). *)
Record annotation_obj : Type := { __name__ : pystr }.

(** An entry of [inspect.signature(f).parameters]; [None] stands for
    [inspect.Parameter.empty]. *)
Record sig_parameter : Type := {
  param_name : pystr;
  annotation : option annotation_obj;
  param_default : option pyobj
}.

(** A parsed docstring, as [docstring_parser.parse] returns it. *)
Record DocstringParam : Type := {
  arg_name : pystr;
  description : option pystr
}.

Record Docstring : Type := {
  short_description : option pystr;
  params : list DocstringParam
}.

(** A function object: its name, [inspect.getdoc] of it, its signature. *)
Record function_obj : Type := {
  func_name : pystr;
  getdoc : option pystr;
  signature : list sig_parameter
}.

(** [x or placeholder] for an optional string. *)
Definition or_else (x : option pystr) (placeholder : pystr) : pystr :=
  match x with
  | Some (c :: s) => c :: s
  | Some [] | None => placeholder
  end.

(** The inner loop of [get_tool_metadata]: the description of the first
    docstring entry for [param_name]. *)
Fixpoint param_desc_of (doc_params : list DocstringParam) (param_name : pystr)
  : pystr :=
  match doc_params with
  | [] => []
  | doc_param :: rest =>
    if decide (arg_name doc_param = param_name)
    then or_else (description doc_param) (u8 "无描述")
    else param_desc_of rest param_name
  end.

Record parameter_info : Type := {
  pi_name : pystr;
  pi_type : pystr;
  pi_default : pyobj;
  pi_description : pystr
}.

Record tool_metadata : Type := {
  md_name : pystr;
  md_description : pystr;
  md_parameters : list parameter_info
}.

Definition parameter_info_of (parsed_doc : Docstring) (param : sig_parameter)
  : parameter_info :=
  let param_type :=
    match annotation param with
    | Some a => __name__ a
    | None => u8 "未指定"
    end in
  let default_value :=
    match param_default param with
    | Some v => v
    | None => PyStr (u8 "必填")
    end in
  let param_desc := param_desc_of (params parsed_doc) (param_name param) in
  {| pi_name := param_name param;
     pi_type := param_type;
     pi_default := default_value;
     pi_description := param_desc |}.

(** [parse] is [docstring_parser.parse]. *)
Definition get_tool_metadata (parse : pystr -> Docstring) (tool_func : function_obj)
  : tool_metadata :=
  let tool_name := func_name tool_func in
  let docstring := match getdoc tool_func with Some (c :: d) => c :: d | _ => [] end in
  let parsed_doc := parse docstring in
  let tool_description := or_else (short_description parsed_doc) (u8 "无描述") in
  let parameters := map (parameter_info_of parsed_doc) (signature tool_func) in
  {| md_name := tool_name;
     md_description := tool_description;
     md_parameters := parameters |}.

End tool_executor.

Export tool_executor.

(* ===================================================================== *)
(** * [planning/tool_executor.py]: the catalog of tools *)
(* ===================================================================== *)

Module tool_catalog.

(** What the interpreter's [inspect] and the [docstring_parser] library
    report: [inspect_method] gives the function object behind a method
    of the registry, [docstring_parse] is [docstring_parser.parse]. *)
Record reflection : Type := {
  docstring_parse : pystr -> Docstring;
  inspect_method : tool_method -> function_obj
}.

(** The line of one parameter. *)
Definition param_line (param : parameter_info) : pystr :=
  u8 "   - " ++ pi_name param ++ u8 "（类型：" ++ pi_type param ++ u8 "，"
  ++ u8 "默认值：" ++ py_str (pi_default param) ++ u8 "）："
  ++ pi_description param.

(** The block of one tool: the body of the loop of
    [generate_available_tools]. *)
Definition tool_block (refl : reflection) (idx : nat)
  (tool_display_name : pystr) (tool_func : tool_method) : pystr :=
  let metadata :=
    get_tool_metadata (docstring_parse refl) (inspect_method refl tool_func) in
  let tool_info :=
    [ str_nat idx ++ u8 ". 工具名称：" ++ tool_display_name;
      u8 "   工具描述：" ++ md_description metadata;
      u8 "   参数列表：" ] in
  let tool_info := tool_info ++ map param_line (md_parameters metadata) in
  join nl tool_info.

(** [for idx, (name, func) in enumerate(items, idx): ...] *)
Fixpoint tool_blocks (refl : reflection) (idx : nat)
  (items : list (pystr * tool_method)) : list pystr :=
  match items with
  | [] => []
  | (tool_display_name, tool_func) :: rest =>
    tool_block refl idx tool_display_name tool_func :: tool_blocks refl (S idx) rest
  end.

Definition generate_available_tools (refl : reflection) (self : ToolExecutor)
  : pystr :=
  let tool_list := tool_blocks refl 1 (tools self) in
  (u8 "# 可用工具列表（含参数说明）" ++ nl) ++ join (nl ++ nl) tool_list.

End tool_catalog.

Export tool_catalog.

(* ===================================================================== *)
(** * Reference definitions for the statements below *)
(* ===================================================================== *)

Module Spec.

(** The candidates a value of the [parameters] dict contributes. *)
Definition value_candidates (v : param_value) : list pystr :=
  match v with
  | PList items => map py_str items
  | PValue x => [py_str x]
  end.

(** [parameters.get(key)] when [parameters] is a dict, nothing otherwise. *)
Definition param_lookup (key : pystr) (parameters : parameters_obj)
  : option param_value :=
  match parameters with
  | Dict d => d !! key
  | NotADict => None
  end.

(** The identifiers found in a list of candidates: joined with a comma,
    scanned, deduplicated, sorted. *)
Definition codes_of (db : unicode_db) (candidates : list pystr) : list pystr :=
  sorted (elements (list_to_set (findall_code db (join (u8 ",") candidates)) : gset pystr)).

(** The extractor of the specification, generic in the lookup key:
    the candidates of the key's value, else the step text. *)
Definition spec_candidates (key : pystr) (parameters : parameters_obj)
  (step_content : pystr) : list pystr :=
  let from_parameters :=
    match param_lookup key parameters with
    | Some v => value_candidates v
    | None => []
    end in
  match from_parameters, step_content with
  | [], _ :: _ => [step_content]
  | _, _ => from_parameters
  end.

Definition spec_extract (db : unicode_db) (key : pystr)
  (parameters : parameters_obj) (step_content : pystr) : list pystr :=
  codes_of db (spec_candidates key parameters step_content).

(** [is_d] on an optional neighbour. *)
Definition is_d_opt (db : unicode_db) (c : option N) : bool :=
  match c with
  | Some c => is_d db c
  | None => false
  end.

(** [m] is six [\d] characters that stand in [text] between two
    positions where no word character (so no digit) touches them. *)
Definition standalone_code (db : unicode_db) (text m : pystr) : Prop :=
  length m = 6
  /\ Forall (fun c => is_d db c = true) m
  /\ exists pre post,
       text = pre ++ m ++ post
       /\ is_w_opt db (last pre) = false /\ is_w_opt db (head post) = false
       /\ is_d_opt db (last pre) = false /\ is_d_opt db (head post) = false.

(** ** The batch handlers *)

(** The progress callback, when one is passed, returns whenever called. *)
Definition progress_callback_returns (env : environment)
  (progress_callback : option callable) : Prop :=
  forall cb, progress_callback = Some cb ->
    forall t message progress, call_progress env t cb message progress = Return tt.

(** Streamlit's session state holds an [llm_config] dict. *)
Definition llm_config_available (env : environment) : Prop :=
  forall t key default, exists v, llm_config_get env t key default = Return v.

(** The arguments of the analysis call for one identifier. *)
Definition stock_args_of (code date : pystr) (llm_provider llm_model : pyobj)
  : stock_args :=
  {| stock_symbol := code;
     analysis_date := date;
     analysts := [u8 "fundamentals"];
     research_depth := 1;
     llm_provider := llm_provider;
     llm_model := llm_model;
     market_type := u8 "A股" |}.

Definition progress_event (progress_callback : option callable)
  (message : pystr) (progress : Q) : trace :=
  match progress_callback with
  | Some cb => [EvProgress cb message progress]
  | None => []
  end.

(** The calls of one turn of the stock loop: the progress callback
    first, then the clock and the analysis. *)
Definition stock_turn_events (progress_callback : option callable) (total : nat)
  (llm_provider llm_model : pyobj) (i : nat) (code date : pystr) : trace :=
  progress_event progress_callback
    (stock_progress_message code i total) (progress_of i total)
  ++ [EvToday; EvRunStockAnalysis (stock_args_of code date llm_provider llm_model)].

(** The calls of the turns for the identifiers [turns] (each with the
    date its turn read), numbered from [i0]. *)
Fixpoint stock_batch_events (progress_callback : option callable) (total : nat)
  (llm_provider llm_model : pyobj) (i0 : nat) (turns : list (pystr * pystr))
  : trace :=
  match turns with
  | [] => []
  | (code, date) :: rest =>
    stock_turn_events progress_callback total llm_provider llm_model i0 code date
    ++ stock_batch_events progress_callback total llm_provider llm_model (S i0) rest
  end.

(** The calls of the progress callback in a trace, oldest first. *)
Definition progress_calls (tr : trace) : list (callable * pystr * Q) :=
  flat_map (fun ev =>
    match ev with
    | EvProgress cb message progress => [(cb, message, progress)]
    | _ => []
    end) tr.

(** The fragment of one identifier, by how its analysis call ended. *)
Definition stock_fragment (code : pystr) (outcome : result analysis_result)
  : pystr :=
  match outcome with
  | Return analysis_result => stock_success_fragment code analysis_result
  | Raise e => stock_failure_fragment code e
  end.

(** The two reads of the session configuration that open a batch. *)
Definition config_reads : trace :=
  [EvConfigGet (u8 "llm_provider") (PyStr (u8 "dashscope"));
   EvConfigGet (u8 "llm_model") (PyStr (u8 "qwen-plus"))].

(** ** The report of one stock *)

(** The section of one report type: present with its text, or absent. *)
Definition section (heading : pystr) (report : option pyobj) : list pystr :=
  match report with
  | Some text => [u8 "#### " ++ heading ++ nl ++ py_str text]
  | None => []
  end.

(** [analysis_result['decision']['reasoning']] when both keys exist. *)
Definition reasoning_of (r : analysis_result) : option pyobj :=
  match ar_decision r with
  | Some decision => decision !! u8 "reasoning"
  | None => None
  end.

(** [analysis_result['state'][report_type]] when both keys exist. *)
Definition report_of (r : analysis_result) (report_type : pystr) : option pyobj :=
  match ar_state r with
  | Some state => state !! report_type
  | None => None
  end.

End Spec.

Export Spec.

(* ===================================================================== *)
(** * Sample environments *)
(* ===================================================================== *)

Module Samples.

(** An analysis result with a market report and nothing else. *)
Definition market_only : analysis_result :=
  {| ar_state := Some {[ u8 "market_report" := PyStr (u8 "up") ]};
     ar_decision := None |}.

(** A working environment in which the analysis of 600000 fails and
    every other analysis returns [market_only]. *)
Definition sample_env : environment :=
  {| unicodedata := unicode_excerpt;
     llm_config_get := fun _ _ default => Return default;
     date_today := fun _ => u8 "2025-01-01";
     call_progress := fun _ _ _ _ => Return tt;
     run_stock_analysis := fun _ args =>
       if decide (stock_symbol args = u8 "600000")
       then Raise (Exn (u8 "network down"))
       else Return market_only;
     akshare := fun _ _ _ => Raise (Exn (u8 "timeout"));
     dashscope_content := fun _ _ _ _ => Return (u8 "ok") |}.

(** The [AttributeError] of a session state without [llm_config]. *)
Definition no_config_error : exn :=
  Exn (u8 "st.session_state has no attribute 'llm_config'").

(** The same environment, but the session state holds no [llm_config]. *)
Definition no_config_env : environment :=
  {| unicodedata := unicode_excerpt;
     llm_config_get := fun _ _ _ => Raise no_config_error;
     date_today := date_today sample_env;
     call_progress := call_progress sample_env;
     run_stock_analysis := run_stock_analysis sample_env;
     akshare := akshare sample_env;
     dashscope_content := dashscope_content sample_env |}.

Definition two_stocks : parameters_obj :=
  Dict {[ u8 "stock_symbols" := PList [PyStr (u8 "600036"); PyStr (u8 "600000")] ]}.

Definition the_callback : callable := Callable 0.

(** [def handler(x): pass]: one parameter, neither annotated nor given
    a default, and no docstring. *)
Definition undocumented_handler : function_obj :=
  {| func_name := u8 "handler";
     getdoc := None;
     signature := [ {| param_name := u8 "x"; annotation := None; param_default := None |} ] |}.

(** What [docstring_parser.parse] returns for the empty docstring. *)
Definition parse_empty (docstring : pystr) : Docstring :=
  {| short_description := None; params := [] |}.

End Samples.

Export Samples.

(* ===================================================================== *)
(** * Reference definitions for further statements *)
(* ===================================================================== *)

Module ScanSpec.

(** Six characters of the class [\d]. *)
Definition six_digits (db : unicode_db) (m : pystr) : Prop :=
  length m = 6 /\ Forall (fun c => is_d db c = true) m.

(** While the scan passes over the rest of a match it has a digit, a
    word character, behind it. *)
Definition inside_match (db : unicode_db) (before : option N) (skip : nat)
  (s : pystr) : Prop :=
  skip = 0%nat
  \/ (is_w_opt db before = true
      /\ Forall (fun c => is_d db c = true) (take skip s)).

(** The character before a code, when [pre] is what the scan still has
    to pass to reach it. *)
Definition char_before (before : option N) (pre : pystr) : option N :=
  match last pre with
  | Some c => Some c
  | None => before
  end.

(** What lies before, and behind, an element of a text joined by
    commas: nothing or a comma. *)
Definition comma_or_end_before (a : pystr) : Prop := a = [] \/ last a = Some 44%N.
Definition comma_or_end_after (b : pystr) : Prop := b = [] \/ head b = Some 44%N.

End ScanSpec.

Export ScanSpec.

Module BatchSpec.

(** The arguments of the analysis calls in a trace, oldest first. *)
Definition analysis_calls (tr : trace) : list stock_args :=
  flat_map (fun ev =>
    match ev with
    | EvRunStockAnalysis args => [args]
    | _ => []
    end) tr.

(** The answer to one call of the progress callback, if one is passed. *)
Definition progress_answer (env : environment) (t : trace)
  (progress_callback : option callable) (message : pystr) (progress : Q)
  : result unit :=
  match progress_callback with
  | Some cb => call_progress env t cb message progress
  | None => Return tt
  end.

End BatchSpec.

Export BatchSpec.

Module FundSpec.

(** What one guarded block of [run_fund_analysis] appends to [result],
    by the answer of akshare. *)
Definition fund_block_text (heading failed ending : pystr) (answer : result pystr)
  : pystr :=
  match answer with
  | Return text => heading ++ text ++ ending
  | Raise e => failed ++ exn_str e ++ ending
  end.

(** The calls of one guarded block: the query, and the pause after a
    query that returned. *)
Definition fund_block_events (table : ak_table) (fund_symbol : pystr)
  (answer : result pystr) : trace :=
  EvAkshare table fund_symbol
  :: match answer with
     | Return _ => [EvSleep 1]
     | Raise _ => []
     end.

(** The nine blocks of [run_fund_analysis], in the order of the source:
    table, heading, failure label, ending. *)
Definition fund_tables : list (ak_table * pystr * pystr * pystr) :=
  [ (fund_individual_basic_info_xq,
     u8 "【基本数据】:" ++ nl, u8 "【基本数据】获取失败: ", nl ++ nl);
    (fund_rating_all,
     u8 "【基金评级】:" ++ nl, u8 "【基金评级】获取失败: ", nl ++ nl);
    (fund_individual_achievement_xq,
     u8 "【业绩表现】:" ++ nl, u8 "【业绩表现】获取失败: ", nl ++ nl);
    (fund_value_estimation_em,
     u8 "【净值估算】:" ++ nl, u8 "【净值估算】获取失败: ", nl ++ nl);
    (fund_individual_analysis_xq,
     u8 "【数据分析】:" ++ nl, u8 "【数据分析】获取失败: ", nl ++ nl);
    (fund_individual_profit_probability_xq,
     u8 "【盈利概率】:" ++ nl, u8 "【盈利概率】获取失败: ", nl ++ nl);
    (fund_individual_detail_hold_xq,
     u8 "【持仓资产比例】:" ++ nl, u8 "【持仓资产比例】获取失败: ", nl ++ nl);
    (fund_portfolio_industry_allocation_em,
     u8 "【行业配置】:" ++ nl, u8 "【行业配置】获取失败: ", nl ++ nl);
    (fund_portfolio_hold_em,
     u8 "【基金持仓】:" ++ nl, u8 "【基金持仓】获取失败: ", nl) ].

(** A run of guarded blocks, followed by [k] on the text they built. *)
Fixpoint fund_blocks_then {A : Type} (tables : list (ak_table * pystr * pystr * pystr))
  (fund_symbol result : pystr) (k : pystr -> M A) : M A :=
  match tables with
  | [] => k result
  | (table, heading, failed, ending) :: rest =>
    bind (fund_block table fund_symbol heading failed ending result)
         (fun result => fund_blocks_then rest fund_symbol result k)
  end.

(** The answers akshare gives to a run of blocks started at trace [t]. *)
Fixpoint fund_answers (env : environment) (t : trace)
  (tables : list (ak_table * pystr * pystr * pystr)) (fund_symbol : pystr)
  : list (result pystr) :=
  match tables with
  | [] => []
  | (table, _, _, _) :: rest =>
    let answer := akshare env t table fund_symbol in
    answer :: fund_answers env (t ++ fund_block_events table fund_symbol answer)
                rest fund_symbol
  end.

(** The text and the calls of a run of blocks with given answers. *)
Fixpoint fund_text (tables : list (ak_table * pystr * pystr * pystr))
  (answers : list (result pystr)) : pystr :=
  match tables, answers with
  | (_, heading, failed, ending) :: rest, answer :: answers' =>
    fund_block_text heading failed ending answer ++ fund_text rest answers'
  | _, _ => []
  end.

Fixpoint fund_events (tables : list (ak_table * pystr * pystr * pystr))
  (fund_symbol : pystr) (answers : list (result pystr)) : trace :=
  match tables, answers with
  | (table, _, _, _) :: rest, answer :: answers' =>
    fund_block_events table fund_symbol answer ++ fund_events rest fund_symbol answers'
  | _, _ => []
  end.

(** The user prompt built around the fetched data. *)
Definition fund_user_prompt (fund_symbol data : pystr) : pystr :=
  (u8 "你现在拥有以下基金的真实数据，请严格依赖真实数据（注意！每条数据必须强制利用到来进行分析），"
   ++ u8 "绝不编造其他数据，对（基金代码：" ++ fund_symbol
   ++ u8 "）进行全面分析，给出非常详细格式化的报告:" ++ nl)
  ++ data.

(** The akshare queries, the seconds slept and the dashscope calls in a
    trace. *)
Definition akshare_calls (tr : trace) : list (ak_table * pystr) :=
  flat_map (fun ev =>
    match ev with
    | EvAkshare table symbol => [(table, symbol)]
    | _ => []
    end) tr.

Definition seconds_slept (tr : trace) : nat :=
  fold_right (fun ev total =>
    match ev with
    | EvSleep seconds => (seconds + total)%nat
    | _ => total
    end) 0%nat tr.

Definition dashscope_calls (tr : trace) : list (pystr * pystr * pystr) :=
  flat_map (fun ev =>
    match ev with
    | EvDashscope model system_message user_prompt =>
      [(model, system_message, user_prompt)]
    | _ => []
    end) tr.

Definition returned {A : Type} (answer : result A) : bool :=
  match answer with
  | Return _ => true
  | Raise _ => false
  end.

(** The text an answer of akshare leaves in the prompt. *)
Definition answer_text (answer : result pystr) : pystr :=
  match answer with
  | Return text => text
  | Raise e => exn_str e
  end.

(** The fragment of one fund, by how its analysis ended. *)
Definition fund_fragment (code : pystr) (outcome : result pystr) : pystr :=
  match outcome with
  | Return analysis_result => fund_success_fragment code analysis_result
  | Raise e => fund_failure_fragment code e
  end.

(** The calls of the progress callback a batch of funds is to make. *)
Definition fund_progress_expected (progress_callback : option callable)
  (total i0 : nat) (ids : list pystr) : list (callable * pystr * Q) :=
  match progress_callback with
  | Some cb =>
    zip_with (fun i code => (cb, fund_progress_message code i total, progress_of i total))
             (seq i0 (length ids)) ids
  | None => []
  end.

End FundSpec.

Export FundSpec.


(* ===================================================================== *)
(** * Further samples *)
(* ===================================================================== *)

Module MoreSamples.

(** Parameters that list two funds, the second one twice. *)
Definition two_funds : parameters_obj :=
  Dict {[ u8 "fund_symbols"
          := PList [PyStr (u8 "485119"); PyStr (u8 "290012"); PyStr (u8 "485119")] ]}.

(** An interpreter in which every method of the registry looks like
    [undocumented_handler]. *)
Definition sample_reflection : reflection :=
  {| docstring_parse := parse_empty;
     inspect_method := fun _ => undocumented_handler |}.




End MoreSamples.

Export MoreSamples.

(* ===================================================================== *)
(** * Strings: the order of [sorted] *)
(* ===================================================================== *)

Section StringOrder.

Lemma str_leb_refl (a : pystr) : str_leb a a = true.
Proof.
  induction a as [|x a IH]; simpl; [reflexivity|].
  rewrite N.ltb_irrefl. exact IH.
Qed.

Lemma str_le_total (a b : pystr) : str_le a b \/ str_le b a.
Proof.
  unfold str_le. revert b.
  induction a as [|x a IH]; intros [|y b]; simpl; auto.
  destruct (N.ltb_spec x y) as [Hxy|Hxy]; [auto|].
  destruct (N.ltb_spec y x) as [Hyx|Hyx]; [auto|].
  apply IH.
Qed.

Lemma str_le_trans (a b c : pystr) : str_le a b -> str_le b c -> str_le a c.
Proof.
  unfold str_le. revert b c.
  induction a as [|x a IH]; intros [|y b] [|z c]; simpl; try congruence.
  destruct (N.ltb_spec x y) as [Hxy|Hxy].
  - intros _.
    destruct (N.ltb_spec y z) as [Hyz|Hyz].
    + intros _. destruct (N.ltb_spec x z); [reflexivity|lia].
    + destruct (N.ltb_spec z y); [congruence|].
      intros _. destruct (N.ltb_spec x z); [reflexivity|lia].
  - destruct (N.ltb_spec y x) as [Hyx|Hyx]; [congruence|].
    assert (x = y) by lia; subst y.
    intros Hab.
    destruct (N.ltb_spec x z) as [Hxz|Hxz]; [reflexivity|].
    destruct (N.ltb_spec z x) as [Hzx|Hzx]; [congruence|].
    apply IH, Hab.
Qed.

Lemma str_le_antisym (a b : pystr) : str_le a b -> str_le b a -> a = b.
Proof.
  unfold str_le. revert b.
  induction a as [|x a IH]; intros [|y b]; simpl; try congruence.
  destruct (N.ltb_spec x y) as [Hxy|Hxy].
  - destruct (N.ltb_spec y x); [lia|congruence].
  - destruct (N.ltb_spec y x) as [Hyx|Hyx]; [congruence|].
    intros H1 H2. assert (x = y) by lia. subst y. f_equal. auto.
Qed.

#[local] Instance str_le_Transitive : Transitive str_le.
Proof. intros a b c. apply str_le_trans. Qed.

#[local] Instance str_le_Total : Total str_le.
Proof. intros a b. apply str_le_total. Qed.

Lemma sorted_perm (xs : list pystr) : sorted xs ≡ₚ xs.
Proof. apply merge_sort_Permutation. Qed.

Lemma sorted_StronglySorted (xs : list pystr) : StronglySorted str_le (sorted xs).
Proof. apply (StronglySorted_merge_sort str_le). Qed.

Lemma StronglySorted_strict (xs : list pystr) :
  NoDup xs -> StronglySorted str_le xs -> StronglySorted str_lt xs.
Proof.
  induction 2 as [|x xs Hs IH Hall]; constructor.
  - apply IH. by apply NoDup_cons_1_2 in H.
  - apply NoDup_cons_1_1 in H.
    rewrite Forall_forall in Hall |- *.
    intros y Hy. split; [by apply Hall|].
    intros ->. exact (H Hy).
Qed.

End StringOrder.

(* ===================================================================== *)
(** * The scan for six-digit codes *)
(* ===================================================================== *)

Section Scan.

Variable db : unicode_db.

Lemma is_d_is_w (c : N) : is_d db c = true -> is_w db c = true.
Proof.
  unfold is_d, is_w. intros ->.
  rewrite orb_true_r. reflexivity.
Qed.

Lemma not_w_not_d (c : option N) : is_w_opt db c = false -> is_d_opt db c = false.
Proof.
  destruct c as [c|]; simpl; [|reflexivity].
  intros Hw. destruct (is_d db c) eqn:Hd; [|reflexivity].
  apply is_d_is_w in Hd. congruence.
Qed.

Lemma boundary_before_digit (before : option N) (c : N) :
  is_d db c = true ->
  word_boundary db before (Some c) = true -> is_w_opt db before = false.
Proof.
  intros Hd. unfold word_boundary. simpl.
  rewrite (is_d_is_w _ Hd). by destruct (is_w_opt db before).
Qed.

Lemma boundary_after_digit (after : option N) (c : N) :
  is_d db c = true ->
  word_boundary db (Some c) after = true -> is_w_opt db after = false.
Proof.
  intros Hd. unfold word_boundary. simpl.
  rewrite (is_d_is_w _ Hd). by destruct (is_w_opt db after).
Qed.

(** What a match at one position says about the text there. *)
Lemma match_code_inv (before : option N) (s m : pystr) :
  match_code db before s = Some m ->
  s = m ++ drop 6 s
  /\ length m = 6
  /\ Forall (fun c => is_d db c = true) m
  /\ is_w_opt db before = false
  /\ is_w_opt db (head (drop 6 s)) = false.
Proof.
  unfold match_code.
  destruct (word_boundary db before (head s)) eqn:Hb1; [|discriminate].
  destruct (length (take 6 s) =? 6)%nat eqn:Hlen; [|discriminate].
  destruct (forallb (is_d db) (take 6 s)) eqn:Hall; [|discriminate].
  destruct (word_boundary db (last (take 6 s)) (head (drop 6 s))) eqn:Hb2;
    [|discriminate].
  simpl. intros [= <-].
  apply Nat.eqb_eq in Hlen.
  assert (Hd : Forall (fun c => is_d db c = true) (take 6 s)).
  { apply Forall_forall. intros c Hc.
    rewrite forallb_forall in Hall. apply Hall. by apply list_elem_of_In. }
  split; [by rewrite take_drop|].
  split; [exact Hlen|]. split; [exact Hd|].
  destruct s as [|c0 s0]; [discriminate|].
  split.
  - apply (boundary_before_digit _ c0); [|exact Hb1].
    by inversion Hd.
  - destruct (last (take 6 (c0 :: s0))) as [cl|] eqn:Hlast.
    + apply (boundary_after_digit _ cl); [|exact Hb2].
      rewrite Forall_forall in Hd. apply Hd.
      apply last_Some in Hlast as [l' ->]. set_solver.
    + apply last_None in Hlast. rewrite Hlast in Hlen. discriminate.
Qed.

(** Every string the scan yields stands alone in the scanned text. *)
Lemma findall_from_sound (s pre : pystr) (skip : nat) (m : pystr) :
  m ∈ findall_from db (last pre) skip s -> standalone_code db (pre ++ s) m.
Proof.
  revert pre skip.
  induction s as [|c s IH]; intros pre skip; simpl.
  - intros H. by apply elem_of_nil in H.
  - assert (Hstep : forall k, m ∈ findall_from db (Some c) k s ->
                              standalone_code db (pre ++ c :: s) m).
    { intros k Hk. rewrite cons_middle, app_assoc.
      apply (IH (pre ++ [c]) k). by rewrite last_snoc. }
    destruct skip as [|k]; [|apply Hstep].
    destruct (match_code db (last pre) (c :: s)) as [m0|] eqn:Hm; [|apply Hstep].
    intros Hin. apply elem_of_cons in Hin as [->|Hin]; [|by apply (Hstep 5)].
    apply match_code_inv in Hm as (Hs & Hlen & Hd & Hw1 & Hw2).
    split; [exact Hlen|]. split; [exact Hd|].
    exists pre, (drop 6 (c :: s)).
    split; [by rewrite <- Hs|].
    repeat split; auto using not_w_not_d.
Qed.

Lemma findall_code_sound (text m : pystr) :
  m ∈ findall_code db text -> standalone_code db text m.
Proof. intros H. by apply (findall_from_sound text [] 0 m). Qed.

(** The identifiers of a list of candidates: standing alone in the
    joined text, pairwise distinct, in strictly ascending order. *)
Lemma codes_of_spec (candidates : list pystr) :
  Forall (standalone_code db (join (u8 ",") candidates)) (codes_of db candidates)
  /\ NoDup (codes_of db candidates)
  /\ StronglySorted str_lt (codes_of db candidates).
Proof.
  unfold codes_of.
  set (found := findall_code db (join (u8 ",") candidates)).
  assert (Hnd : NoDup (sorted (elements (list_to_set found : gset pystr)))).
  { rewrite sorted_perm. apply NoDup_elements. }
  split; [|split; [exact Hnd|]].
  - apply Forall_forall. intros m Hm.
    rewrite sorted_perm in Hm.
    apply elem_of_elements, elem_of_list_to_set in Hm.
    by apply findall_code_sound.
  - apply StronglySorted_strict; [exact Hnd|apply sorted_StronglySorted].
Qed.

Lemma codes_of_nil (candidates : list pystr) :
  findall_code db (join (u8 ",") candidates) = [] -> codes_of db candidates = [].
Proof.
  unfold codes_of. intros ->. simpl.
  rewrite elements_empty. reflexivity.
Qed.

(** Both extractors are the generic one at their own key. *)
Lemma extract_stock_unfold (parameters : parameters_obj) (step_content : pystr) :
  _extract_stock_symbols db parameters step_content
  = spec_extract db (u8 "stock_symbols") parameters step_content.
Proof.
  unfold _extract_stock_symbols, spec_extract, spec_candidates, codes_of, param_lookup.
  destruct parameters as [|d]; [reflexivity|].
  destruct (d !! u8 "stock_symbols") as [[[|item items]|v]|];
    destruct step_content; reflexivity.
Qed.

Lemma extract_fund_unfold (parameters : parameters_obj) (step_content : pystr) :
  _extract_fund_symbols db parameters step_content
  = spec_extract db (u8 "fund_symbols") parameters step_content.
Proof.
  unfold _extract_fund_symbols, spec_extract, spec_candidates, codes_of, param_lookup.
  destruct parameters as [|d]; [reflexivity|].
  destruct (d !! u8 "fund_symbols") as [[[|item items]|v]|];
    destruct step_content; reflexivity.
Qed.

End Scan.

(* ===================================================================== *)
(** * The identifier extractors *)
(* ===================================================================== *)

Section Extractors.

Variable db : unicode_db.

(** C1 (as amended). For every [parameters], [step_content] and either
    extractor, every returned identifier consists of exactly six
    characters of the class [\d] of a [str] pattern (Unicode decimal
    digits: the ASCII digits and those of other scripts), standing in
    the scanned text where no word character, hence no further digit,
    touches it on either side; the identifiers are pairwise distinct
    and in strictly ascending lexicographic order. *)
Theorem extract_symbols_standalone_distinct_sorted
  (parameters : parameters_obj) (step_content : pystr) :
  (Forall (standalone_code db
             (join (u8 ",") (spec_candidates (u8 "stock_symbols") parameters step_content)))
          (_extract_stock_symbols db parameters step_content)
   /\ NoDup (_extract_stock_symbols db parameters step_content)
   /\ StronglySorted str_lt (_extract_stock_symbols db parameters step_content))
  /\
  (Forall (standalone_code db
             (join (u8 ",") (spec_candidates (u8 "fund_symbols") parameters step_content)))
          (_extract_fund_symbols db parameters step_content)
   /\ NoDup (_extract_fund_symbols db parameters step_content)
   /\ StronglySorted str_lt (_extract_fund_symbols db parameters step_content)).
Proof.
  rewrite extract_stock_unfold, extract_fund_unfold.
  split; apply codes_of_spec.
Qed.

(** C2 (as amended). When [parameters] is a dict that holds the
    extractor's key, the result is computed from that key's value alone
    and [step_content] is ignored (also when the value holds no valid
    code: the result is then empty), unless the value is the empty
    list: an empty list contributes no candidate, and the extractor
    then reads [step_content] as it does without the key. The two
    sources are never merged. *)
Theorem parameter_value_takes_precedence
  (d : gmap pystr param_value) (v : param_value) (step_content : pystr) :
  (d !! u8 "stock_symbols" = Some v ->
   _extract_stock_symbols db (Dict d) step_content
   = match v with
     | PList [] => _extract_stock_symbols db NotADict step_content
     | _ => codes_of db (value_candidates v)
     end)
  /\
  (d !! u8 "fund_symbols" = Some v ->
   _extract_fund_symbols db (Dict d) step_content
   = match v with
     | PList [] => _extract_fund_symbols db NotADict step_content
     | _ => codes_of db (value_candidates v)
     end)
  /\
  (findall_code db (join (u8 ",") (value_candidates v)) = [] ->
   codes_of db (value_candidates v) = []).
Proof.
  rewrite !extract_stock_unfold, !extract_fund_unfold.
  unfold spec_extract, spec_candidates. simpl.
  split; [|split; [|apply codes_of_nil]].
  - intros ->. destruct v as [[|item items]|x]; reflexivity.
  - intros ->. destruct v as [[|item items]|x]; reflexivity.
Qed.

(** C10. The two extractors are one function up to the key they look
    up: on parameters that map ["stock_symbols"], respectively
    ["fund_symbols"], to the same value (or both to none) they return
    the same list; in particular they agree on any one [parameters]
    that holds neither key or is no dict. *)
Theorem extractors_agree_up_to_key
  (p p' : parameters_obj) (step_content : pystr) :
  (param_lookup (u8 "stock_symbols") p = param_lookup (u8 "fund_symbols") p' ->
   _extract_stock_symbols db p step_content
   = _extract_fund_symbols db p' step_content)
  /\
  (param_lookup (u8 "stock_symbols") p = None ->
   param_lookup (u8 "fund_symbols") p = None ->
   _extract_stock_symbols db p step_content
   = _extract_fund_symbols db p step_content).
Proof.
  rewrite !extract_stock_unfold, !extract_fund_unfold.
  unfold spec_extract, spec_candidates.
  split.
  - intros ->. reflexivity.
  - intros -> ->. reflexivity.
Qed.

End Extractors.

(** C1, counterexample: six fullwidth digits in the step text are
    returned as an identifier, and none of them is an ASCII digit. *)
Lemma extract_stock_symbols_fullwidth_digits :
  _extract_stock_symbols unicode_excerpt NotADict (u8 "１２３４５６")
  = [[65297; 65298; 65299; 65300; 65301; 65302]%N]
  /\ Forall (fun c => ascii_digit c = false)
            [65297; 65298; 65299; 65300; 65301; 65302]%N.
Proof.
  split; [vm_compute; reflexivity|].
  repeat constructor.
Qed.

(** C2, counterexample: the key is present with an empty list, which
    holds no code, and the code of [step_content] is returned. *)
Lemma empty_symbol_list_reads_step_content :
  _extract_stock_symbols unicode_excerpt
    (Dict {[ u8 "stock_symbols" := PList [] ]}) (u8 "600000")
  = [u8 "600000"]
  /\ codes_of unicode_excerpt (value_candidates (PList [])) = [].
Proof. split; vm_compute; reflexivity. Qed.

(** C2 on a dict that lists two stocks, with a third code in the step
    text. *)
Lemma parameter_value_takes_precedence_witness :
  _extract_stock_symbols unicode_excerpt
    (Dict {[ u8 "stock_symbols" := PList [PyInt 600036; PyStr (u8 "600000")] ]})
    (u8 "000001")
  = codes_of unicode_excerpt
      (value_candidates (PList [PyInt 600036; PyStr (u8 "600000")])).
Proof.
  apply (proj1 (parameter_value_takes_precedence unicode_excerpt
                  {[ u8 "stock_symbols" := PList [PyInt 600036; PyStr (u8 "600000")] ]}
                  (PList [PyInt 600036; PyStr (u8 "600000")]) (u8 "000001"))).
  vm_compute. reflexivity.
Defined.

(** C10 on two dicts that hold the same text under the two keys. *)
Lemma extractors_agree_up_to_key_witness :
  _extract_stock_symbols unicode_excerpt
    (Dict {[ u8 "stock_symbols" := PValue (PyStr (u8 "600000 000001")) ]}) (u8 "600036")
  = _extract_fund_symbols unicode_excerpt
    (Dict {[ u8 "fund_symbols" := PValue (PyStr (u8 "600000 000001")) ]}) (u8 "600036").
Proof.
  apply (proj1 (extractors_agree_up_to_key unicode_excerpt
                  (Dict {[ u8 "stock_symbols" := PValue (PyStr (u8 "600000 000001")) ]})
                  (Dict {[ u8 "fund_symbols" := PValue (PyStr (u8 "600000 000001")) ]})
                  (u8 "600036"))).
  vm_compute. reflexivity.
Defined.

(* ===================================================================== *)
(** * The dispatcher *)
(* ===================================================================== *)

Section Contains.

Lemma contains_refl (s : pystr) : contains s s.
Proof. exists [], []. by rewrite app_nil_r. Qed.

Lemma contains_prepend (pre s x : pystr) : contains s x -> contains (pre ++ s) x.
Proof.
  intros (a & b & ->). exists (pre ++ a), b. by rewrite <- app_assoc.
Qed.

Lemma contains_append (s post x : pystr) : contains s x -> contains (s ++ post) x.
Proof.
  intros (a & b & ->). exists a, (b ++ post). by rewrite <- !app_assoc.
Qed.

(** Every part of a joined text occurs in it. *)
Lemma contains_join (sep : pystr) (parts : list pystr) (x : pystr) :
  x ∈ parts -> contains (join sep parts) x.
Proof.
  induction parts as [|p rest IH]; intros Hin.
  - by apply elem_of_nil in Hin.
  - destruct rest as [|q rest].
    + apply list_elem_of_singleton in Hin as ->. apply contains_refl.
    + change (join sep (p :: q :: rest)) with (p ++ sep ++ join sep (q :: rest)).
      apply elem_of_cons in Hin as [->|Hin].
      * apply contains_append, contains_refl.
      * apply contains_prepend, contains_prepend, IH, Hin.
Qed.

End Contains.

Section Dispatcher.

Variable self : ToolExecutor.

Lemma dict_get_None {V : Type} (d : list (pystr * V)) (key : pystr) :
  key ∉ map fst d -> dict_get d key = None.
Proof.
  induction d as [|[k v] d IH]; simpl; [reflexivity|].
  intros Hnot. apply not_elem_of_cons in Hnot as [Hne Hnot].
  destruct (decide (k = key)) as [->|_]; [congruence|].
  apply IH, Hnot.
Qed.

Lemma dict_get_names {V W : Type} (d : list (pystr * V)) (d' : list (pystr * W))
  (key : pystr) :
  map fst d = map fst d' -> dict_get d key = None -> dict_get d' key = None.
Proof.
  revert d'. induction d as [|[k v] d IH]; intros [|[k' v'] d']; simpl;
    try discriminate; [reflexivity|].
  intros [= <- Hrest]. destruct (decide (k = key)); [discriminate|].
  apply IH, Hrest.
Qed.

(** For a registered name [execute] runs the bound method and turns an
    exception into a text. *)
Lemma execute_registered
  (tool_name : pystr) (tool : tool_method) (parameters : parameters_obj)
  (step_content : pystr) (progress_callback : option callable)
  (env : environment) (t : trace) :
  dict_get (tools self) tool_name = Some tool ->
  execute self tool_name parameters step_content progress_callback env t
  = match tool parameters step_content progress_callback env t with
    | (Return report, t') => (Return report, t')
    | (Raise e, t') =>
      (Return (u8 "执行工具 '" ++ tool_name ++ u8 "' 时发生错误: " ++ exn_str e), t')
    end.
Proof.
  intros Hget. unfold execute. rewrite Hget. unfold try_except, ret.
  by destruct (tool parameters step_content progress_callback env t) as [[a|e] t'].
Qed.

(** C3. For a [tool_name] that is not registered, [execute] returns
    (it does not raise) an error text in which every registered display
    name occurs; it makes no call at all, and the text is the same
    whatever methods the registry binds to its names, so no method of
    the registry runs. *)
Theorem execute_unknown_tool
  (tool_name : pystr) (parameters : parameters_obj) (step_content : pystr)
  (progress_callback : option callable) (env : environment) (t : trace) :
  tool_name ∉ get_available_tools self ->
  exists message,
    execute self tool_name parameters step_content progress_callback env t
    = (Return message, t)
    /\ (forall name, name ∈ get_available_tools self -> contains message name)
    /\ (forall other : ToolExecutor,
          get_available_tools other = get_available_tools self ->
          execute other tool_name parameters step_content progress_callback env t
          = (Return message, t)).
Proof.
  intros Hnot.
  pose proof (dict_get_None (tools self) tool_name Hnot) as Hget.
  eexists. unfold execute. rewrite Hget.
  split; [reflexivity|]. split.
  - intros name Hname.
    do 3 apply contains_prepend. by apply contains_join.
  - intros other Hnames.
    rewrite (dict_get_names (tools self) (tools other) tool_name); auto.
    by rewrite Hnames.
Qed.

(** C4. When the method registered for [tool_name] raises, [execute]
    catches the exception and returns a text in which the exception's
    message occurs; whatever the method does, [execute] returns a text
    and never raises. *)
Theorem execute_catches_tool_exceptions
  (tool_name : pystr) (tool : tool_method) (parameters : parameters_obj)
  (step_content : pystr) (progress_callback : option callable)
  (env : environment) (t : trace) :
  dict_get (tools self) tool_name = Some tool ->
  (forall e t', tool parameters step_content progress_callback env t = (Raise e, t') ->
     exists message,
       execute self tool_name parameters step_content progress_callback env t
       = (Return message, t')
       /\ contains message (exn_str e))
  /\ (exists message t',
        execute self tool_name parameters step_content progress_callback env t
        = (Return message, t')).
Proof.
  intros Hget. rewrite (execute_registered _ _ _ _ _ _ _ Hget).
  split.
  - intros e t' ->. eexists. split; [reflexivity|].
    do 3 apply contains_prepend. apply contains_refl.
  - destruct (tool parameters step_content progress_callback env t) as [[a|e] t'];
      eauto.
Qed.

End Dispatcher.


(* ===================================================================== *)
(** * The batch handlers *)
(* ===================================================================== *)

Section StockBatch.

Variable env : environment.
Variable progress_callback : option callable.
Hypothesis callback_ok : progress_callback_returns env progress_callback.

Lemma run_progress (message : pystr) (progress : Q) (t : trace) :
  match progress_callback with
  | Some cb => progress_callback_call cb message progress
  | None => ret tt
  end env t
  = (Return tt, t ++ progress_event progress_callback message progress).
Proof using callback_ok.
  unfold progress_event.
  destruct progress_callback as [cb|] eqn:Hcb.
  - unfold progress_callback_call, perform. by rewrite (callback_ok cb).
  - unfold ret. by rewrite app_nil_r.
Qed.

Lemma stock_loop_body_turn (llm_provider llm_model : pyobj) (total i : nat)
  (code : pystr) (all_analysis : list pystr) (t : trace) :
  let t1 := t ++ progress_event progress_callback
                   (stock_progress_message code i total) (progress_of i total) in
  let date := date_today env t1 in
  let outcome :=
    run_stock_analysis env (t1 ++ [EvToday])
      (stock_args_of code date llm_provider llm_model) in
  stock_loop_body progress_callback llm_provider llm_model total i code all_analysis env t
  = (Return (all_analysis ++ [stock_fragment code outcome]),
     t ++ stock_turn_events progress_callback total llm_provider llm_model i code date).
Proof using callback_ok.
  intros t1 date outcome.
  unfold stock_loop_body. unfold bind at 1. rewrite run_progress.
  fold t1.
  unfold bind, try_except, today, call_run_stock_analysis, perform, ret.
  fold date. 
  change (run_stock_analysis env (t1 ++ [EvToday]) _) with outcome.
  unfold stock_turn_events. subst t1.
  destruct outcome as [r|e]; simpl; f_equal; rewrite <- !app_assoc; reflexivity.
Qed.

(** The loop: one fragment per identifier, in order, and the calls of
    the turns in order. *)
Lemma stock_loop_run (llm_provider llm_model : pyobj) (total : nat)
  (ids : list pystr) :
  forall (i0 : nat) (all_analysis : list pystr) (t : trace),
  exists fragments dates,
    length dates = length ids
    /\ for_enumerate i0 ids
         (stock_loop_body progress_callback llm_provider llm_model total)
         all_analysis env t
       = (Return (all_analysis ++ fragments),
          t ++ stock_batch_events progress_callback total llm_provider llm_model
                 i0 (zip ids dates))
    /\ Forall2 (fun code fragment =>
         exists t_call args,
           stock_symbol args = code
           /\ (t_call ++ [EvRunStockAnalysis args]) `prefix_of`
                (t ++ stock_batch_events progress_callback total llm_provider
                        llm_model i0 (zip ids dates))
           /\ fragment = stock_fragment code (run_stock_analysis env t_call args))
         ids fragments.
Proof using callback_ok.
  induction ids as [|code ids IH]; intros i0 all_analysis t.
  - exists [], []. simpl. unfold ret. rewrite !app_nil_r. auto.
  - simpl. unfold bind. rewrite stock_loop_body_turn.
    set (t1 := t ++ progress_event progress_callback
                      (stock_progress_message code i0 total) (progress_of i0 total)).
    set (date := date_today env t1).
    set (args := stock_args_of code date llm_provider llm_model).
    set (fragment := stock_fragment code (run_stock_analysis env (t1 ++ [EvToday]) args)).
    set (turn := stock_turn_events progress_callback total llm_provider llm_model
                   i0 code date).
    destruct (IH (S i0) (all_analysis ++ [fragment]) (t ++ turn))
      as (fragments & dates & Hlen & Hrun & Hall).
    exists (fragment :: fragments), (date :: dates).
    split; [simpl; by rewrite Hlen|].
    simpl. fold turn. rewrite Hrun.
    rewrite <- !app_assoc. split; [reflexivity|].
    rewrite <- !app_assoc in Hall.
    constructor; [|exact Hall].
    exists (t1 ++ [EvToday]), args.
    split; [reflexivity|]. split; [|reflexivity].
    exists (stock_batch_events progress_callback total llm_provider llm_model
              (S i0) (zip ids dates)).
    subst t1 turn. unfold stock_turn_events. fold args.
    rewrite <- !app_assoc. reflexivity.
Qed.


End StockBatch.

Section Progress.

Variable total : nat.
Hypothesis total_pos : (0 < total)%nat.

Lemma progress_of_lt (i j : nat) :
  (i < j)%nat -> (progress_of i total < progress_of j total)%Q.
Proof using total_pos.
  intros Hij. unfold progress_of, Qlt. simpl.
  apply Z.mul_lt_mono_pos_r; [apply Pos2Z.is_pos|lia].
Qed.

Lemma progress_of_full : (progress_of total total == 1)%Q.
Proof using total_pos.
  unfold progress_of, Qeq. simpl.
  rewrite Z.mul_1_r, Z.mul_1_l.
  rewrite <- (Nat2Pos.id total) at 1 by lia.
  apply positive_nat_Z.
Qed.

(** The fractions of turns [i0], [i0 + 1], ... strictly increase. *)
Lemma progress_strictly_increasing (n i0 : nat) :
  StronglySorted Qlt (map (fun i => progress_of i total) (seq i0 n)).
Proof using total_pos.
  revert i0. induction n as [|n IH]; intros i0; simpl; constructor.
  - apply IH.
  - apply Forall_forall. intros q Hq.
    apply list_elem_of_fmap in Hq as (j & -> & Hj).
    apply list_elem_of_In, in_seq in Hj.
    apply progress_of_lt. lia.
Qed.

Lemma progress_last :
  last (map (fun i => progress_of i total) (seq 1 total))
  = Some (progress_of total total).
Proof using total_pos.
  destruct total as [|n]; [lia|].
  rewrite seq_S, map_app. simpl. apply last_snoc.
Qed.

End Progress.



(** C5. When the extraction yields no identifier, either handler
    returns its fixed error text at once and the trace is unchanged:
    neither the analysis of an identifier nor the progress callback
    nor any other call out of the class is made. *)
Theorem no_identifier_no_call
  (parameters : parameters_obj) (step_content : pystr)
  (progress_callback : option callable) (env : environment) (t : trace) :
  (_extract_stock_symbols (unicodedata env) parameters step_content = [] ->
   execute_stock_analysis_tool parameters step_content progress_callback env t
   = (Return (u8 "错误：未找到有效的A股股票代码（需为6位数字），无法执行分析。"), t))
  /\
  (_extract_fund_symbols (unicodedata env) parameters step_content = [] ->
   execute_fund_analysis_tool parameters step_content progress_callback env t
   = (Return (u8 "错误：未找到有效的基金代码（需为6位数字），无法执行分析。"), t)).
Proof.
  split; intros Hnone.
  - unfold execute_stock_analysis_tool, bind, get_unicodedata.
    rewrite Hnone. reflexivity.
  - unfold execute_fund_analysis_tool, bind, get_unicodedata.
    rewrite Hnone. reflexivity.
Qed.

(** C5 on a step text whose code follows an ideograph, a word
    character: the scan finds no identifier. *)
Lemma no_identifier_no_call_witness :
  execute_stock_analysis_tool NotADict (u8 "分析600000") (Some the_callback) sample_env []
  = (Return (u8 "错误：未找到有效的A股股票代码（需为6位数字），无法执行分析。"), []).
Proof.
  apply (proj1 (no_identifier_no_call NotADict (u8 "分析600000")
                  (Some the_callback) sample_env [])).
  vm_compute. reflexivity.
Defined.

(** The preconditions of the batch statements hold in [sample_env]. *)
Lemma sample_callback_returns (cb : option callable) :
  progress_callback_returns sample_env cb.
Proof. intros c _ t message progress. reflexivity. Defined.

Lemma sample_config_available : llm_config_available sample_env.
Proof. intros t key default. eexists. reflexivity. Defined.

Lemma two_stocks_extracted :
  _extract_stock_symbols (unicodedata sample_env) two_stocks [] <> [].
Proof. vm_compute. discriminate. Defined.




(* ===================================================================== *)
(** * The report of one stock *)
(* ===================================================================== *)

Section StockReport.

Lemma join_snoc (sep : pystr) (parts : list pystr) (x : pystr) :
  join sep (parts ++ [x])
  = match parts with
    | [] => x
    | _ :: _ => join sep parts ++ sep ++ x
    end.
Proof.
  induction parts as [|p parts IH]; [reflexivity|].
  destruct parts as [|q parts]; [reflexivity|].
  change (join sep ((p :: q :: parts) ++ [x]))
    with (p ++ sep ++ join sep ((q :: parts) ++ [x])).
  rewrite IH.
  change (join sep (p :: q :: parts)) with (p ++ sep ++ join sep (q :: parts)).
  by rewrite <- !app_assoc.
Qed.

Lemma or_self_nonempty (x placeholder : pystr) :
  x <> [] -> match x with [] => placeholder | _ :: _ => x end = x.
Proof. by destruct x. Qed.

Lemma report_headings :
  title (replace_char 95 32 (u8 "market_report")) = u8 "Market Report"
  /\ title (replace_char 95 32 (u8 "fundamentals_report")) = u8 "Fundamentals Report"
  /\ title (replace_char 95 32 (u8 "sentiment_report")) = u8 "Sentiment Report"
  /\ title (replace_char 95 32 (u8 "news_report")) = u8 "News Report".
Proof. repeat split; vm_compute; reflexivity. Qed.

(** [raw_reports]: the sections of the report types present in the
    state, in the fixed order. *)
Lemma raw_reports_sections (r : analysis_result) :
  raw_reports_of r
  = section (u8 "Market Report") (report_of r (u8 "market_report"))
    ++ section (u8 "Fundamentals Report") (report_of r (u8 "fundamentals_report"))
    ++ section (u8 "Sentiment Report") (report_of r (u8 "sentiment_report"))
    ++ section (u8 "News Report") (report_of r (u8 "news_report")).
Proof.
  destruct report_headings as (H1 & H2 & H3 & H4).
  unfold raw_reports_of, report_of, report_types.
  destruct (ar_state r) as [state|]; [|reflexivity].
  cbn [flat_map]. rewrite H1, H2, H3, H4. rewrite app_nil_r.
  unfold section.
  destruct (state !! u8 "market_report"), (state !! u8 "fundamentals_report"),
    (state !! u8 "sentiment_report"), (state !! u8 "news_report"); reflexivity.
Qed.

Lemma section_nil (heading : pystr) (report : option pyobj) :
  section heading report = [] <-> report = None.
Proof. destruct report; simpl; split; congruence. Qed.

(** C9 (as amended). For an analysis that returned, the body of the
    stock fragment is built from the sections of those report types
    that the result's state holds (market, fundamentals, sentiment,
    news, in this order) and from one closing entry for the decision
    reasoning, all joined by a blank line. An absent section
    contributes nothing, no separator either; the closing entry is the
    reasoning when there is one and the empty text otherwise, so that
    without reasoning a body with sections ends with the separator.
    The placeholder for no result is the body exactly when every
    section and the reasoning are absent. *)
Theorem stock_success_fragment_body (code : pystr) (r : analysis_result) :
  let sections :=
    section (u8 "Market Report") (report_of r (u8 "market_report"))
    ++ section (u8 "Fundamentals Report") (report_of r (u8 "fundamentals_report"))
    ++ section (u8 "Sentiment Report") (report_of r (u8 "sentiment_report"))
    ++ section (u8 "News Report") (report_of r (u8 "news_report")) in
  stock_success_fragment code r
  = u8 "### 个股分析: " ++ code ++ nl
    ++ match reasoning_of r, sections with
       | Some reasoning, _ =>
         join (nl ++ nl)
              (sections ++ [u8 "#### 核心决策结论" ++ nl ++ py_str reasoning])
       | None, _ :: _ => join (nl ++ nl) sections ++ nl ++ nl
       | None, [] => u8 "无分析结果"
       end
  /\ (full_raw_report_of r = [] <-> sections = [] /\ reasoning_of r = None)
  /\ (sections = [] <->
      report_of r (u8 "market_report") = None
      /\ report_of r (u8 "fundamentals_report") = None
      /\ report_of r (u8 "sentiment_report") = None
      /\ report_of r (u8 "news_report") = None).
Proof.
  intros sections.
  assert (Hfull : full_raw_report_of r
    = match reasoning_of r, sections with
      | Some reasoning, _ =>
        join (nl ++ nl)
             (sections ++ [u8 "#### 核心决策结论" ++ nl ++ py_str reasoning])
      | None, _ :: _ => join (nl ++ nl) sections ++ nl ++ nl
      | None, [] => []
      end).
  { unfold full_raw_report_of. rewrite raw_reports_sections. fold sections.
    unfold decision_reasoning_of, reasoning_of.
    destruct (ar_decision r) as [decision|];
      [destruct (decision !! u8 "reasoning") as [reasoning|]|];
      try reflexivity;
      rewrite join_snoc; destruct sections; try reflexivity;
      by rewrite app_nil_r, <- app_assoc. }
  assert (Hreasoned : forall reasoning,
    join (nl ++ nl) (sections ++ [u8 "#### 核心决策结论" ++ nl ++ py_str reasoning])
    <> []).
  { intros reasoning H. rewrite join_snoc in H.
    apply (f_equal length) in H.
    destruct sections; [|rewrite !length_app in H]; simpl in H; lia. }
  split; [|split].
  - unfold stock_success_fragment. rewrite Hfull.
    destruct (reasoning_of r) as [reasoning|].
    + by rewrite or_self_nonempty.
    + destruct sections as [|s sections'] eqn:Hs; [reflexivity|].
      rewrite or_self_nonempty; [reflexivity|].
      intros H. apply (f_equal length) in H.
      rewrite !length_app in H. simpl in H. lia.
  - rewrite Hfull.
    destruct (reasoning_of r) as [reasoning|].
    + split; [intros H; by apply Hreasoned in H|intros [_ [=]]].
    + destruct sections as [|s sections'] eqn:Hs; [tauto|].
      split; [|intros [[=] _]].
      intros H. apply (f_equal length) in H.
      rewrite !length_app in H. simpl in H. lia.
  - subst sections. rewrite !app_nil, !section_nil. tauto.
Qed.

End StockReport.

(* ===================================================================== *)
(** * The stock batch: failures of the analysis are isolated *)
(* ===================================================================== *)

Section StockBatchReport.





End StockBatchReport.

(** C9, counterexample: a result with a market report and no decision.
    The body ends with the separator, which the join of the sections
    that are present does not. *)
Lemma stock_fragment_trailing_separator :
  reasoning_of market_only = None
  /\ stock_success_fragment (u8 "600036") market_only
     = u8 "### 个股分析: 600036" ++ nl ++ u8 "#### Market Report" ++ nl ++ u8 "up"
       ++ nl ++ nl
  /\ stock_success_fragment (u8 "600036") market_only
     <> u8 "### 个股分析: 600036" ++ nl
        ++ join (nl ++ nl) [u8 "#### Market Report" ++ nl ++ u8 "up"].
Proof.
  split; [reflexivity|]. split; [vm_compute; reflexivity|].
  intros H. apply (f_equal length) in H. vm_compute in H. discriminate.
Qed.

(* ===================================================================== *)
(** * Metadata reflection *)
(* ===================================================================== *)

Section Metadata.

(** The description taken for a parameter is that of the first
    docstring entry with its name. *)
Lemma param_desc_of_first (doc_params before after : list DocstringParam)
  (entry : DocstringParam) (name : pystr) :
  doc_params = before ++ entry :: after ->
  arg_name entry = name ->
  (forall e, e ∈ before -> arg_name e <> name) ->
  param_desc_of doc_params name = or_else (description entry) (u8 "无描述").
Proof.
  intros -> Hname. induction before as [|e before IH]; intros Hbefore; simpl.
  - by rewrite decide_True.
  - rewrite decide_False by (apply Hbefore; left).
    apply IH. intros e' He'. apply Hbefore. by right.
Qed.

(** Without an entry of its name the description stays empty. *)
Lemma param_desc_of_unmatched (doc_params : list DocstringParam) (name : pystr) :
  (forall e, e ∈ doc_params -> arg_name e <> name) ->
  param_desc_of doc_params name = [].
Proof.
  induction doc_params as [|e doc_params IH]; intros Hnone; simpl; [reflexivity|].
  rewrite decide_False by (apply Hnone; left).
  apply IH. intros e' He'. apply Hnone. by right.
Qed.

(** C8 (as amended). [get_tool_metadata] reports the declared
    parameters in declaration order, and for each of them: as type the
    annotation's name, or the placeholder for an unannotated parameter;
    as default the declared default, or the placeholder for a required
    parameter; as description that of the first docstring entry with
    the parameter's name, or the placeholder for no description when
    that entry's description is empty, and the empty text when the
    docstring has no entry with the parameter's name. *)
Theorem get_tool_metadata_parameters
  (parse : pystr -> Docstring) (tool_func : function_obj) :
  let metadata := get_tool_metadata parse tool_func in
  let parsed_doc := parse (default [] (getdoc tool_func)) in
  md_name metadata = func_name tool_func
  /\ Forall2 (fun param info =>
       pi_name info = param_name param
       /\ pi_type info = match annotation param with
                         | Some a => __name__ a
                         | None => u8 "未指定"
                         end
       /\ pi_default info = match param_default param with
                            | Some v => v
                            | None => PyStr (u8 "必填")
                            end
       /\ (forall before entry after,
             params parsed_doc = before ++ entry :: after ->
             arg_name entry = param_name param ->
             (forall e, e ∈ before -> arg_name e <> param_name param) ->
             pi_description info
             = match description entry with
               | Some (c :: text) => c :: text
               | Some [] | None => u8 "无描述"
               end)
       /\ ((forall e, e ∈ params parsed_doc -> arg_name e <> param_name param) ->
           pi_description info = []))
     (signature tool_func) (md_parameters metadata).
Proof.
  intros metadata parsed_doc. split; [reflexivity|].
  assert (Hdoc : match getdoc tool_func with Some (c :: d) => c :: d | _ => [] end
                 = default [] (getdoc tool_func)).
  { by destruct (getdoc tool_func) as [[|c d]|]. }
  subst metadata. unfold get_tool_metadata. cbn [md_parameters].
  rewrite Hdoc. fold parsed_doc.
  induction (signature tool_func) as [|param sig IH]; constructor; [|exact IH].
  unfold parameter_info_of. cbn [pi_name pi_type pi_default pi_description].
  repeat split.
  - intros before entry after Hsplit Hname Hbefore.
    by rewrite (param_desc_of_first _ before after entry).
  - apply param_desc_of_unmatched.
Qed.

End Metadata.

(** C8, counterexample: the one parameter of [undocumented_handler] has
    no docstring entry; its type and default are the placeholders, its
    description is the empty text and not the placeholder. *)
Lemma unmatched_parameter_description_empty :
  md_parameters (get_tool_metadata parse_empty undocumented_handler)
  = [ {| pi_name := u8 "x";
         pi_type := u8 "未指定";
         pi_default := PyStr (u8 "必填");
         pi_description := [] |} ]
  /\ u8 "无描述" <> [].
Proof. split; [vm_compute; reflexivity|vm_compute; discriminate]. Qed.

(* ===================================================================== *)
(** * The statements above, on the sample environments *)
(* ===================================================================== *)

(** C3 on the registry of [__init__] and a name it does not hold. *)
Lemma execute_unknown_tool_witness :
  exists message,
    execute __init__ (u8 "宏观分析工具") two_stocks [] None sample_env []
    = (Return message, [])
    /\ contains message (u8 "基金分析工具").
Proof.
  assert (Hnot : u8 "宏观分析工具" ∉ get_available_tools __init__).
  { intros H. vm_compute in H.
    repeat (apply elem_of_cons in H as [H|H]; [discriminate|]).
    by apply elem_of_nil in H. }
  destruct (execute_unknown_tool __init__ (u8 "宏观分析工具") two_stocks [] None
              sample_env [] Hnot) as (message & Hrun & Hnames & _).
  exists message. split; [exact Hrun|].
  apply Hnames. vm_compute. apply list_elem_of_further, list_elem_of_here.
Defined.

(** The stock tool is registered, and without a session configuration
    it raises. *)
Lemma stock_tool_registered :
  dict_get (tools __init__) (u8 "个股股票分析工具") = Some execute_stock_analysis_tool.
Proof. reflexivity. Defined.

Lemma stock_tool_raises_without_config :
  execute_stock_analysis_tool two_stocks [] None no_config_env []
  = (Raise no_config_error,
     [EvConfigGet (u8 "llm_provider") (PyStr (u8 "dashscope"))]).
Proof. vm_compute. reflexivity. Defined.

(** C4 on the stock tool without a session configuration. *)
Lemma execute_catches_tool_exceptions_witness :
  exists message,
    execute __init__ (u8 "个股股票分析工具") two_stocks [] None no_config_env []
    = (Return message, [EvConfigGet (u8 "llm_provider") (PyStr (u8 "dashscope"))])
    /\ contains message (exn_str no_config_error).
Proof.
  destruct (execute_catches_tool_exceptions __init__ (u8 "个股股票分析工具")
              execute_stock_analysis_tool two_stocks [] None no_config_env []
              stock_tool_registered) as [Hcaught _].
  exact (Hcaught _ _ stock_tool_raises_without_config).
Defined.


(* ===================================================================== *)
(** * Sample runs *)
(* ===================================================================== *)

(** Codes inside a longer number, or touching a letter or an
    underscore, are passed over. *)
Example scan_skips_embedded_codes :
  findall_code unicode_excerpt
    (u8 "600000,600036 1234567 a123456 123456_ 000001")
  = [u8 "600000"; u8 "600036"; u8 "000001"].
Proof. vm_compute. reflexivity. Qed.

(** An ideograph is a word character: a code that touches one does not
    stand alone. *)
Example scan_skips_code_after_ideograph :
  findall_code unicode_excerpt (u8 "分析600000") = []
  /\ findall_code unicode_excerpt (u8 "分析 600000 。") = [u8 "600000"].
Proof. split; vm_compute; reflexivity. Qed.

(** Duplicates are dropped and the result is sorted. *)
Example extract_deduplicates_and_sorts :
  _extract_stock_symbols unicode_excerpt two_stocks [] = [u8 "600000"; u8 "600036"]
  /\ _extract_fund_symbols unicode_excerpt NotADict (u8 "485119 290012 485119")
     = [u8 "290012"; u8 "485119"].
Proof. split; vm_compute; reflexivity. Qed.

(** Two stocks, the analysis of the first of which fails: both
    fragments are in the report, in the order of the identifiers. *)
Example execute_two_stocks_first_fails :
  fst (execute __init__ (u8 "个股股票分析工具") two_stocks [] None sample_env [])
  = Return (u8 "### 个股分析: 600000" ++ nl ++ u8 "分析失败：network down"
            ++ nl ++ nl
            ++ u8 "### 个股分析: 600036" ++ nl
            ++ u8 "#### Market Report" ++ nl ++ u8 "up" ++ nl ++ nl).
Proof. vm_compute. reflexivity. Qed.

(** A fund whose tables cannot be fetched is still analysed: each
    guarded block records its failure and the model's answer is the
    report. *)
Example execute_fund_with_failing_tables :
  fst (execute __init__ (u8 "基金分析工具") NotADict (u8 "000001") None sample_env [])
  = Return (u8 "### 基金分析: 000001" ++ nl ++ u8 "ok").
Proof. vm_compute. reflexivity. Qed.

(* ===================================================================== *)
(** * The scan misses no code *)
(* ===================================================================== *)

Section ScanComplete.

Variable db : unicode_db.

(** A code that stands alone is matched where it starts. *)
Lemma match_code_here (before : option N) (m post : pystr) :
  length m = 6 ->
  Forall (fun c => is_d db c = true) m ->
  is_w_opt db before = false ->
  is_w_opt db (head post) = false ->
  match_code db before (m ++ post) = Some m.
Proof.
  intros Hlen Hd Hbefore Hafter.
  assert (Htake : take 6 (m ++ post) = m).
  { by rewrite take_app_length' by (symmetry; exact Hlen). }
  assert (Hdrop : drop 6 (m ++ post) = post).
  { by rewrite drop_app_length' by (symmetry; exact Hlen). }
  unfold match_code. rewrite Htake, Hdrop, Hlen. simpl.
  assert (Hall : forallb (is_d db) m = true).
  { apply forallb_forall. intros c Hc. rewrite Forall_forall in Hd.
    apply Hd. by apply list_elem_of_In. }
  rewrite Hall.
  destruct m as [|c0 m']; [discriminate|].
  assert (Hfirst : is_w db c0 = true).
  { apply is_d_is_w. by inversion Hd. }
  destruct (last (c0 :: m')) as [cl|] eqn:Hlast.
  - assert (Hlastw : is_w db cl = true).
    { apply is_d_is_w. rewrite Forall_forall in Hd. apply Hd.
      apply last_Some in Hlast as [l' ->]. set_solver. }
    unfold word_boundary. simpl. rewrite Hbefore, Hafter, Hfirst, Hlastw.
    reflexivity.
  - by apply last_None in Hlast.
Qed.

Lemma inside_match_step (before : option N) (k : nat) (c : N) (s : pystr) :
  inside_match db before (S k) (c :: s) -> inside_match db (Some c) k s.
Proof.
  intros [Hz|[_ Hd]]; [discriminate|].
  simpl in Hd. inversion Hd as [|? ? Hc Hrest]; subst.
  right. split; [by apply is_d_is_w|exact Hrest].
Qed.

Lemma inside_match_after (before : option N) (c : N) (s m : pystr) :
  match_code db before (c :: s) = Some m -> inside_match db (Some c) 5 s.
Proof.
  intros Hm. apply match_code_inv in Hm as (Hs & Hlen & Hd & _).
  destruct m as [|c' m']; [discriminate|].
  simpl in Hs. injection Hs as -> Hs.
  inversion Hd as [|? ? Hc Hrest]; subst.
  right. split; [by apply is_d_is_w|].
  simpl in Hlen. rewrite Hs.
  by rewrite take_app_length' by lia.
Qed.

Lemma findall_from_complete (pre m post : pystr) :
  length m = 6 ->
  Forall (fun c => is_d db c = true) m ->
  is_w_opt db (head post) = false ->
  forall (before : option N) (skip : nat),
    inside_match db before skip (pre ++ m ++ post) ->
    is_w_opt db (char_before before pre) = false ->
    m ∈ findall_from db before skip (pre ++ m ++ post).
Proof.
  intros Hlen Hd Hafter.
  induction pre as [|c pre IH]; intros before skip Hinside Hbefore.
  - unfold char_before in Hbefore. simpl in Hbefore.
    destruct Hinside as [->|[Hw _]]; [|congruence].
    destruct m as [|c0 m'] eqn:Hm; [discriminate|].
    rewrite <- Hm in *. simpl app at 1.
    assert (Hs : m ++ post = c0 :: (m' ++ post)) by (by rewrite Hm).
    rewrite Hs. simpl. rewrite <- Hs.
    rewrite match_code_here by assumption. left.
  - assert (Hnext : is_w_opt db (char_before (Some c) pre) = false).
    { unfold char_before in *. rewrite last_cons in Hbefore.
      by destruct (last pre). }
    simpl. destruct skip as [|k].
    + destruct (match_code db before (c :: pre ++ m ++ post)) as [m0|] eqn:Hm0.
      * right. apply IH; [|exact Hnext].
        by apply (inside_match_after before c _ m0).
      * apply IH; [by left|exact Hnext].
    + apply IH; [|exact Hnext].
      by apply (inside_match_step before).
Qed.

Lemma findall_code_complete (text m : pystr) :
  standalone_code db text m -> m ∈ findall_code db text.
Proof.
  intros (Hlen & Hd & pre & post & -> & Hw1 & Hw2 & _).
  apply findall_from_complete; try assumption; [by left|].
  unfold char_before. by destruct (last pre).
Qed.

(** The identifiers of a list of candidates are exactly the codes that
    stand alone in the joined text. *)
Lemma codes_of_iff (candidates : list pystr) (m : pystr) :
  m ∈ codes_of db candidates <-> standalone_code db (join (u8 ",") candidates) m.
Proof.
  unfold codes_of. rewrite sorted_perm, elem_of_elements, elem_of_list_to_set.
  split; [apply findall_code_sound|apply findall_code_complete].
Qed.

End ScanComplete.

(* ===================================================================== *)
(** * Identifiers as candidates *)
(* ===================================================================== *)

Section CodesAsCandidates.

Variable db : unicode_db.

(** The comma that joins the candidates is no word character (it is
    none in the Unicode tables). *)
Hypothesis comma_separates : is_w db 44 = false.

Lemma comma_no_digit : is_d db 44 = false.
Proof using comma_separates.
  destruct (is_d db 44) eqn:Hd; [|reflexivity].
  apply is_d_is_w in Hd. congruence.
Qed.

(** The scan passes a comma without a match. *)
Lemma findall_from_comma (before : option N) (s : pystr) :
  findall_from db before 0 (44%N :: s) = findall_from db (Some 44%N) 0 s.
Proof using comma_separates.
  cbn [findall_from].
  assert (Hno : match_code db before (44%N :: s) = None).
  { unfold match_code. cbn [take forallb]. rewrite comma_no_digit.
    cbn [andb]. by rewrite !andb_false_r. }
  by rewrite Hno.
Qed.

(** The scan of a code that stands alone yields it and goes on behind. *)
Lemma findall_from_code (before : option N) (m post : pystr) :
  six_digits db m ->
  is_w_opt db before = false ->
  is_w_opt db (head post) = false ->
  findall_from db before 0 (m ++ post) = m :: findall_from db (last m) 0 post.
Proof.
  intros [Hlen Hd] Hbefore Hafter.
  pose proof (match_code_here db before m post Hlen Hd Hbefore Hafter) as Hm.
  destruct m as [|c1 [|c2 [|c3 [|c4 [|c5 [|c6 [|c7 m]]]]]]]; try discriminate.
  cbn [app] in Hm |- *. cbn [findall_from]. rewrite Hm.
  reflexivity.
Qed.

(** The scan of codes joined by commas yields the codes. *)
Lemma findall_from_join_codes (codes : list pystr) :
  Forall (six_digits db) codes ->
  forall before, is_w_opt db before = false ->
    findall_from db before 0 (join (u8 ",") codes) = codes.
Proof using comma_separates.
  induction 1 as [|m codes Hm Hcodes IH]; intros before Hbefore; [reflexivity|].
  destruct codes as [|m' codes].
  - cbn [join]. rewrite <- (app_nil_r m) at 1.
    rewrite findall_from_code by done. reflexivity.
  - change (join (u8 ",") (m :: m' :: codes))
      with (m ++ 44%N :: join (u8 ",") (m' :: codes)).
    rewrite findall_from_code; [|done..|by simpl].
    rewrite findall_from_comma. f_equal. by apply IH.
Qed.

#[local] Instance str_le_AntiSymm : AntiSymm (=) str_le.
Proof. intros a b. apply str_le_antisym. Qed.

Lemma str_lt_le (xs : list pystr) :
  StronglySorted str_lt xs -> StronglySorted str_le xs.
Proof.
  induction 1 as [|x xs Hs IH Hall]; constructor; [exact IH|].
  eapply Forall_impl; [exact Hall|]. by intros y [Hle _].
Qed.

Lemma str_lt_NoDup (xs : list pystr) : StronglySorted str_lt xs -> NoDup xs.
Proof.
  induction 1 as [|x xs Hs IH Hall]; constructor; [|exact IH].
  intros Hx. rewrite Forall_forall in Hall. by destruct (Hall x Hx).
Qed.

(** Two ascending lists of distinct strings with the same elements are
    one list. *)
Lemma ascending_unique (xs ys : list pystr) :
  StronglySorted str_lt xs -> StronglySorted str_lt ys ->
  (forall m, m ∈ xs <-> m ∈ ys) -> xs = ys.
Proof.
  intros Hxs Hys Hsame.
  apply (StronglySorted_unique str_le); [by apply str_lt_le..|].
  apply NoDup_Permutation; auto using str_lt_NoDup.
Qed.

(** Deduplicating and sorting an ascending list of distinct strings
    changes nothing. *)
Lemma sorted_set_ascending (xs : list pystr) :
  StronglySorted str_lt xs ->
  sorted (elements (list_to_set xs : gset pystr)) = xs.
Proof.
  intros Hxs. apply ascending_unique; [|exact Hxs|].
  - apply StronglySorted_strict; [|apply sorted_StronglySorted].
    rewrite sorted_perm. apply NoDup_elements.
  - intros m. by rewrite sorted_perm, elem_of_elements, elem_of_list_to_set.
Qed.

Lemma codes_of_six_digits (candidates : list pystr) :
  Forall (six_digits db) (codes_of db candidates).
Proof.
  destruct (codes_of_spec db candidates) as [Hall _].
  eapply Forall_impl; [exact Hall|].
  by intros m (Hlen & Hd & _).
Qed.

(** The identifiers found in a list of identifiers are that list. *)
Lemma codes_of_idempotent (candidates : list pystr) :
  codes_of db (codes_of db candidates) = codes_of db candidates.
Proof using comma_separates.
  unfold codes_of at 1. unfold findall_code.
  rewrite findall_from_join_codes; [|apply codes_of_six_digits|reflexivity].
  apply sorted_set_ascending. apply codes_of_spec.
Qed.

End CodesAsCandidates.

Section CodesOfUnion.

Variable db : unicode_db.
Hypothesis comma_separates : is_w db 44 = false.

Lemma comma_before_app (p a : pystr) :
  comma_or_end_before a -> comma_or_end_before (p ++ 44%N :: a).
Proof.
  intros [->|Ha]; right; [by rewrite last_snoc|].
  apply last_Some in Ha as [a' ->].
  change (p ++ 44%N :: a' ++ [44%N]) with (p ++ (44%N :: a') ++ [44%N]).
  by rewrite app_assoc, last_snoc.
Qed.

(** An element of a joined text lies in it between commas. *)
Lemma join_element (parts : list pystr) (c : pystr) :
  c ∈ parts ->
  exists a b, join (u8 ",") parts = a ++ c ++ b
              /\ comma_or_end_before a /\ comma_or_end_after b.
Proof.
  induction parts as [|p parts IH]; intros Hin; [by apply elem_of_nil in Hin|].
  destruct parts as [|q parts].
  - apply list_elem_of_singleton in Hin as ->.
    exists [], []. rewrite app_nil_r. by repeat split; left.
  - change (join (u8 ",") (p :: q :: parts))
      with (p ++ 44%N :: join (u8 ",") (q :: parts)).
    apply elem_of_cons in Hin as [->|Hin].
    + exists [], (44%N :: join (u8 ",") (q :: parts)).
      split; [reflexivity|]. split; [by left|by right].
    + destruct (IH Hin) as (a & b & -> & Ha & Hb).
      exists (p ++ 44%N :: a), b.
      split; [by rewrite <- app_assoc|]. split; [|exact Hb].
      by apply comma_before_app.
Qed.

(** A comma-free piece of a joined text lies within one element. *)
Lemma join_occurrence (parts : list pystr) :
  forall pre m post : pystr,
  join (u8 ",") parts = pre ++ m ++ post ->
  m <> [] -> 44%N ∉ m ->
  exists c a b pre' post',
    c ∈ parts /\ c = pre' ++ m ++ post'
    /\ pre = a ++ pre' /\ post = post' ++ b
    /\ comma_or_end_before a /\ comma_or_end_after b.
Proof.
  clear comma_separates.
  induction parts as [|p parts IH]; intros pre m post Hjoin Hm Hcomma.
  - simpl in Hjoin. symmetry in Hjoin.
    apply app_eq_nil in Hjoin as [_ Hjoin]. apply app_eq_nil in Hjoin as [? _].
    congruence.
  - destruct parts as [|q parts].
    + exists p, [], [], pre, post. simpl in Hjoin.
      rewrite app_nil_r. repeat split; try done; [left|by left..].
    + change (join (u8 ",") (p :: q :: parts))
        with (p ++ 44%N :: join (u8 ",") (q :: parts)) in Hjoin.
      set (rest := join (u8 ",") (q :: parts)) in *.
      apply app_eq_app in Hjoin as [l [[Hp Hrest]|[Hpre Hrest]]].
      * (* the piece starts inside [p] *)
        apply app_eq_app in Hrest as [l2 [[Hm2 Hrest]|[Hl Hpost]]].
        -- (* the comma would lie in, or right behind, the piece *)
           destruct l2 as [|x l2].
           ++ rewrite app_nil_r in Hm2. subst l. simpl in Hrest.
              exists p, [], (44%N :: rest), pre, [].
              rewrite app_nil_r. repeat split; try done;
                [left|by left|by right].
           ++ injection Hrest as Hx _. exfalso. apply Hcomma.
              rewrite Hm2, <- Hx. set_solver.
        -- (* the piece ends inside [p] *)
           exists p, [], (44%N :: rest), pre, l2.
           subst l. repeat split; try done; [left|by left|by right].
      * (* the piece lies behind the comma *)
        destruct l as [|x l].
        -- simpl in Hrest. destruct m as [|y m]; [congruence|].
           injection Hrest as Hy _. exfalso. apply Hcomma. rewrite <- Hy. left.
        -- injection Hrest as Hx Hrest. subst x.
           destruct (IH l m post Hrest Hm Hcomma)
             as (c & a & b & pre' & post' & Hc & Heq & Hl & Hpost & Ha & Hb).
           exists c, (p ++ 44%N :: a), b, pre', post'.
           repeat split; try done.
           ++ by right.
           ++ rewrite Hpre, Hl. by rewrite <- app_assoc.
           ++ by apply comma_before_app.
Qed.

Lemma last_app_nonempty (a pre : pystr) :
  pre <> [] -> last (a ++ pre) = last pre.
Proof.
  destruct pre as [|x pre] using rev_ind; [done|].
  intros _. by rewrite app_assoc, !last_snoc.
Qed.

Lemma head_app_nonempty (post b : pystr) :
  post <> [] -> head (post ++ b) = head post.
Proof. by destruct post. Qed.

Lemma before_join (a pre : pystr) :
  comma_or_end_before a ->
  is_w_opt db (last pre) = false -> is_w_opt db (last (a ++ pre)) = false.
Proof using comma_separates.
  intros Ha Hpre. destruct pre as [|x pre].
  - rewrite app_nil_r. destruct Ha as [-> | Ha]; [done|]. by rewrite Ha.
  - by rewrite last_app_nonempty.
Qed.

Lemma after_join (post b : pystr) :
  comma_or_end_after b ->
  is_w_opt db (head post) = false -> is_w_opt db (head (post ++ b)) = false.
Proof using comma_separates.
  intros Hb Hpost. destruct post as [|x post]; [|exact Hpost].
  simpl. destruct Hb as [-> | Hb]; [done|]. by rewrite Hb.
Qed.

Lemma before_element (a pre : pystr) :
  is_w_opt db (last (a ++ pre)) = false -> is_w_opt db (last pre) = false.
Proof.
  destruct pre as [|x pre]; [reflexivity|].
  by rewrite last_app_nonempty.
Qed.

Lemma after_element (post b : pystr) :
  is_w_opt db (head (post ++ b)) = false -> is_w_opt db (head post) = false.
Proof. by destruct post. Qed.

(** A code stands alone in the joined candidates exactly when it
    stands alone in one of them. *)
Lemma standalone_in_join (candidates : list pystr) (m : pystr) :
  standalone_code db (join (u8 ",") candidates) m
  <-> exists c, c ∈ candidates /\ standalone_code db c m.
Proof using comma_separates.
  split.
  - intros (Hlen & Hd & pre & post & Hjoin & Hw1 & Hw2 & _).
    destruct (join_occurrence candidates pre m post Hjoin)
      as (c & a & b & pre' & post' & Hc & Hceq & Hpre & Hpost & Ha & Hb).
    { by destruct m. }
    { intros Hin. rewrite Forall_forall in Hd. apply Hd in Hin.
      rewrite (comma_no_digit db comma_separates) in Hin. discriminate. }
    subst c pre post.
    exists (pre' ++ m ++ post'). split; [exact Hc|].
    apply before_element in Hw1. apply after_element in Hw2.
    split; [exact Hlen|]. split; [exact Hd|].
    exists pre', post'. repeat split; auto using not_w_not_d.
  - intros (c & Hc & Hlen & Hd & pre & post & -> & Hw1 & Hw2 & _).
    destruct (join_element candidates _ Hc) as (a & b & Hjoin & Ha & Hb).
    split; [exact Hlen|]. split; [exact Hd|].
    exists (a ++ pre), (post ++ b).
    split; [by rewrite Hjoin, <- !app_assoc|].
    pose proof (before_join a pre Ha Hw1).
    pose proof (after_join post b Hb Hw2).
    repeat split; auto using not_w_not_d.
Qed.

(** The identifiers of a list of candidates are those of its elements. *)
Lemma codes_of_union (candidates : list pystr) (m : pystr) :
  m ∈ codes_of db candidates
  <-> exists c, c ∈ candidates /\ standalone_code db c m.
Proof using comma_separates.
  by rewrite codes_of_iff, standalone_in_join.
Qed.

(** Lists of candidates with the same elements have the same
    identifiers. *)
Lemma codes_of_same_elements (xs ys : list pystr) :
  (forall c, c ∈ xs <-> c ∈ ys) -> codes_of db xs = codes_of db ys.
Proof using comma_separates.
  intros Hsame. apply ascending_unique; try apply codes_of_spec.
  intros m. rewrite !codes_of_union.
  split; intros (c & Hc & Hm); exists c; split; auto; by apply Hsame.
Qed.

End CodesOfUnion.

(* ===================================================================== *)
(** * The extractors: what they find *)
(* ===================================================================== *)

Section ExtractorsMore.

Variable db : unicode_db.

(** X1. Completeness of the scan: for every parameters value and
    step text, a string is among the identifiers either extractor
    returns exactly when it is a code of six [\d] characters that
    stands alone, between word boundaries, in the comma-joined
    candidates of that extractor's key. Nothing that stands alone is
    missed and nothing else is returned. *)
Theorem extract_symbols_exactly_standalone
  (parameters : parameters_obj) (step_content m : pystr) :
  (m ∈ _extract_stock_symbols db parameters step_content
   <-> standalone_code db
         (join (u8 ",") (spec_candidates (u8 "stock_symbols") parameters step_content)) m)
  /\
  (m ∈ _extract_fund_symbols db parameters step_content
   <-> standalone_code db
         (join (u8 ",") (spec_candidates (u8 "fund_symbols") parameters step_content)) m).
Proof.
  rewrite extract_stock_unfold, extract_fund_unfold. unfold spec_extract.
  split; apply codes_of_iff.
Qed.

Lemma spec_candidates_no_key (key : pystr) (parameters : parameters_obj)
  (step_content : pystr) :
  param_lookup key parameters = None ->
  join (u8 ",") (spec_candidates key parameters step_content) = step_content.
Proof.
  unfold spec_candidates. intros ->. by destruct step_content.
Qed.

(** X2. When [parameters] is no mapping, or holds no entry for the
    extractor's key, the identifiers returned are exactly the codes
    that stand alone in [step_content]. *)
Theorem extract_symbols_without_key
  (parameters : parameters_obj) (step_content m : pystr) :
  (param_lookup (u8 "stock_symbols") parameters = None ->
   (m ∈ _extract_stock_symbols db parameters step_content
    <-> standalone_code db step_content m))
  /\
  (param_lookup (u8 "fund_symbols") parameters = None ->
   (m ∈ _extract_fund_symbols db parameters step_content
    <-> standalone_code db step_content m)).
Proof.
  rewrite extract_stock_unfold, extract_fund_unfold. unfold spec_extract.
  split; intros Hnone; rewrite codes_of_iff, spec_candidates_no_key; done.
Qed.

Hypothesis comma_separates : is_w db 44 = false.

Lemma spec_extract_listed (key : pystr) (d : gmap pystr param_value)
  (items : list pyobj) (step_content : pystr) :
  d !! key = Some (PList items) -> items <> [] ->
  spec_extract db key (Dict d) step_content = codes_of db (map py_str items).
Proof.
  intros Hkey Hne. unfold spec_extract, spec_candidates. simpl. rewrite Hkey.
  simpl. by destruct items.
Qed.

Lemma spec_extract_empty_list (key : pystr) (d : gmap pystr param_value)
  (step_content : pystr) :
  d !! key = Some (PList []) ->
  spec_extract db key (Dict d) step_content
  = spec_extract db key NotADict step_content.
Proof.
  intros Hkey. unfold spec_extract, spec_candidates. simpl. by rewrite Hkey.
Qed.

Lemma py_str_PyStr (codes : list pystr) : map py_str (PyStr <$> codes) = codes.
Proof. induction codes as [|c codes IH]; simpl; by f_equal. Qed.

Lemma spec_extract_round_trip (key : pystr) (parameters : parameters_obj)
  (step_content : pystr) (d : gmap pystr param_value) (step_content' : pystr) :
  spec_extract db key parameters step_content <> [] ->
  d !! key = Some (PList (PyStr <$> spec_extract db key parameters step_content)) ->
  spec_extract db key (Dict d) step_content'
  = spec_extract db key parameters step_content.
Proof using comma_separates.
  intros Hne Hkey.
  rewrite (spec_extract_listed key d _ step_content' Hkey).
  - rewrite py_str_PyStr. by apply codes_of_idempotent.
  - by destruct (spec_extract db key parameters step_content).
Qed.

(** X3. Round trip: passing the identifiers an extractor returned
    back to it as the list under its key returns the same list,
    whatever the step text then says (the list is non-empty, so the
    step text is not read; it is sorted and free of duplicates, so
    sorting and deduplicating change nothing). The comma that joins the
    candidates is no word character. *)
Theorem extract_symbols_round_trip
  (parameters : parameters_obj) (step_content : pystr)
  (d : gmap pystr param_value) (step_content' : pystr) :
  (_extract_stock_symbols db parameters step_content <> [] ->
   d !! u8 "stock_symbols"
   = Some (PList (PyStr <$> _extract_stock_symbols db parameters step_content)) ->
   _extract_stock_symbols db (Dict d) step_content'
   = _extract_stock_symbols db parameters step_content)
  /\
  (_extract_fund_symbols db parameters step_content <> [] ->
   d !! u8 "fund_symbols"
   = Some (PList (PyStr <$> _extract_fund_symbols db parameters step_content)) ->
   _extract_fund_symbols db (Dict d) step_content'
   = _extract_fund_symbols db parameters step_content).
Proof using comma_separates.
  rewrite !extract_stock_unfold, !extract_fund_unfold.
  split; apply spec_extract_round_trip.
Qed.

Lemma spec_extract_union (key : pystr) (d : gmap pystr param_value)
  (items : list pyobj) (step_content m : pystr) :
  d !! key = Some (PList items) -> items <> [] ->
  (m ∈ spec_extract db key (Dict d) step_content
   <-> exists item, item ∈ items /\ standalone_code db (py_str item) m).
Proof using comma_separates.
  intros Hkey Hne. rewrite (spec_extract_listed key d items) by done.
  rewrite codes_of_union by done. split.
  - intros (c & Hc & Hm). apply list_elem_of_fmap in Hc as (item & -> & Hitem).
    by exists item.
  - intros (item & Hitem & Hm). exists (py_str item).
    split; [|exact Hm]. by apply list_elem_of_fmap_2.
Qed.

(** X4. A non-empty list under the extractor's key is read element
    by element: an identifier is returned exactly when it stands alone
    in [str(item)] of one of the items. Joining the items with commas
    creates no code and hides none. *)
Theorem extract_symbols_list_union
  (d : gmap pystr param_value) (items : list pyobj) (step_content m : pystr) :
  items <> [] ->
  (d !! u8 "stock_symbols" = Some (PList items) ->
   (m ∈ _extract_stock_symbols db (Dict d) step_content
    <-> exists item, item ∈ items /\ standalone_code db (py_str item) m))
  /\
  (d !! u8 "fund_symbols" = Some (PList items) ->
   (m ∈ _extract_fund_symbols db (Dict d) step_content
    <-> exists item, item ∈ items /\ standalone_code db (py_str item) m)).
Proof using comma_separates.
  intros Hne. rewrite extract_stock_unfold, extract_fund_unfold.
  split; intros Hkey; by apply spec_extract_union.
Qed.

Lemma spec_extract_same_elements (key : pystr) (d d' : gmap pystr param_value)
  (items items' : list pyobj) (step_content : pystr) :
  (forall item, item ∈ items <-> item ∈ items') ->
  d !! key = Some (PList items) -> d' !! key = Some (PList items') ->
  spec_extract db key (Dict d) step_content
  = spec_extract db key (Dict d') step_content.
Proof using comma_separates.
  intros Hsame Hkey Hkey'.
  destruct items as [|item items].
  - destruct items' as [|item' items'].
    + by rewrite !spec_extract_empty_list.
    + exfalso. assert (H : item' ∈ @nil pyobj) by (apply Hsame; left).
      by apply elem_of_nil in H.
  - assert (Hne' : items' <> []).
    { intros ->. assert (H : item ∈ @nil pyobj) by (apply Hsame; left).
      by apply elem_of_nil in H. }
    rewrite (spec_extract_listed key d (item :: items)) by done.
    rewrite (spec_extract_listed key d' items') by done.
    apply codes_of_same_elements; [done|].
    intros c. rewrite !list_elem_of_fmap.
    split; intros (x & -> & Hx); exists x; split; auto; by apply Hsame.
Qed.

(** X5. The order and the repetitions of the items listed under the
    key do not matter: two lists with the same items give the same
    identifiers. *)
Theorem extract_symbols_order_irrelevant
  (d d' : gmap pystr param_value) (items items' : list pyobj)
  (step_content : pystr) :
  (forall item, item ∈ items <-> item ∈ items') ->
  (d !! u8 "stock_symbols" = Some (PList items) ->
   d' !! u8 "stock_symbols" = Some (PList items') ->
   _extract_stock_symbols db (Dict d) step_content
   = _extract_stock_symbols db (Dict d') step_content)
  /\
  (d !! u8 "fund_symbols" = Some (PList items) ->
   d' !! u8 "fund_symbols" = Some (PList items') ->
   _extract_fund_symbols db (Dict d) step_content
   = _extract_fund_symbols db (Dict d') step_content).
Proof using comma_separates.
  intros Hsame. rewrite !extract_stock_unfold, !extract_fund_unfold.
  split; by apply spec_extract_same_elements.
Qed.

End ExtractorsMore.

(* ===================================================================== *)
(** * The stock batch: what ends it, and what it calls *)
(* ===================================================================== *)

Section StockBatchMore.

Variable env : environment.

(** One turn of the stock loop, by the answer of the progress callback. *)
Lemma stock_loop_body_cases (progress_callback : option callable)
  (llm_provider llm_model : pyobj) (total i : nat)
  (code : pystr) (all_analysis : list pystr) (t : trace) :
  let message := stock_progress_message code i total in
  let t1 := t ++ progress_event progress_callback message (progress_of i total) in
  let date := date_today env t1 in
  let outcome :=
    run_stock_analysis env (t1 ++ [EvToday])
      (stock_args_of code date llm_provider llm_model) in
  stock_loop_body progress_callback llm_provider llm_model total i code all_analysis env t
  = match progress_answer env t progress_callback message (progress_of i total) with
    | Return _ =>
      (Return (all_analysis ++ [stock_fragment code outcome]),
       t ++ stock_turn_events progress_callback total llm_provider llm_model i code date)
    | Raise e => (Raise e, t1)
    end.
Proof.
  intros message t1 date outcome.
  unfold stock_loop_body, progress_answer.
  destruct progress_callback as [cb|].
  - unfold bind at 1. unfold progress_callback_call, perform.
    fold message. simpl in t1. fold t1.
    destruct (call_progress env t cb message (progress_of i total)) as [[]|e];
      [|reflexivity].
    unfold bind, try_except, today, call_run_stock_analysis, perform, ret.
    fold date. change (run_stock_analysis env (t1 ++ [EvToday]) _) with outcome.
    unfold stock_turn_events. subst t1. simpl progress_event.
    destruct outcome as [r|e]; simpl; f_equal; by rewrite <- !app_assoc.
  - unfold bind at 1. unfold ret at 1.
    assert (Ht1 : t1 = t) by (subst t1; apply app_nil_r).
    unfold bind, try_except, today, call_run_stock_analysis, perform, ret.
    subst date outcome. rewrite Ht1.
    unfold stock_turn_events. simpl progress_event.
    destruct (run_stock_analysis env (t ++ [EvToday]) _) as [r|e];
      simpl; f_equal; by rewrite <- ?app_assoc.
Qed.

(** The stock loop either completes, with one fragment per identifier,
    or stops at a call of the progress callback that raised. *)
Lemma stock_loop_all_or_nothing (progress_callback : option callable)
  (llm_provider llm_model : pyobj) (total : nat) (ids : list pystr) :
  forall (i0 : nat) (all_analysis : list pystr) (t : trace),
  (exists fragments dates,
     length fragments = length ids /\ length dates = length ids
     /\ for_enumerate i0 ids
          (stock_loop_body progress_callback llm_provider llm_model total)
          all_analysis env t
        = (Return (all_analysis ++ fragments),
           t ++ stock_batch_events progress_callback total llm_provider llm_model
                  i0 (zip ids dates)))
  \/
  (exists e cb t_call message progress,
     progress_callback = Some cb
     /\ call_progress env t_call cb message progress = Raise e
     /\ t `prefix_of` t_call
     /\ for_enumerate i0 ids
          (stock_loop_body progress_callback llm_provider llm_model total)
          all_analysis env t
        = (Raise e, t_call ++ [EvProgress cb message progress])).
Proof.
  induction ids as [|code ids IH]; intros i0 all_analysis t.
  - left. exists [], []. simpl. unfold ret. by rewrite !app_nil_r.
  - simpl. unfold bind. rewrite stock_loop_body_cases.
    set (message := stock_progress_message code i0 total).
    set (t1 := t ++ progress_event progress_callback message (progress_of i0 total)).
    set (date := date_today env t1).
    set (fragment := stock_fragment code _).
    set (turn := stock_turn_events progress_callback total llm_provider llm_model
                   i0 code date).
    destruct (progress_answer env t progress_callback message (progress_of i0 total))
      as [[]|e] eqn:Hanswer.
    + destruct (IH (S i0) (all_analysis ++ [fragment]) (t ++ turn))
        as [(fragments & dates & Hlen & Hlen' & Hrun)
           |(e & cb & t_call & msg & q & Hcb & Hraise & Hprefix & Hrun)].
      * left. exists (fragment :: fragments), (date :: dates).
        simpl. rewrite Hlen, Hlen', Hrun. fold turn.
        by rewrite <- !app_assoc.
      * right. exists e, cb, t_call, msg, q.
        repeat split; try done.
        etrans; [|exact Hprefix]. by apply prefix_app_r.
    + right. unfold progress_answer in Hanswer.
      destruct progress_callback as [cb|]; [|discriminate].
      exists e, cb, t, message, (progress_of i0 total).
      by repeat split.
Qed.

Lemma analysis_calls_batch (progress_callback : option callable) (total : nat)
  (llm_provider llm_model : pyobj) (turns : list (pystr * pystr)) (i0 : nat) :
  analysis_calls (stock_batch_events progress_callback total llm_provider llm_model
                    i0 turns)
  = map (fun turn => stock_args_of turn.1 turn.2 llm_provider llm_model) turns.
Proof.
  revert i0. induction turns as [|[code date] turns IH]; intros i0; [reflexivity|].
  simpl. unfold analysis_calls in *. rewrite !flat_map_app. simpl.
  rewrite IH. by destruct progress_callback.
Qed.

(** The handler on a non-empty extraction: the two reads, then the loop. *)
Lemma execute_stock_loop (parameters : parameters_obj) (step_content : pystr)
  (progress_callback : option callable) (t : trace)
  (llm_provider llm_model : pyobj) :
  let ids := _extract_stock_symbols (unicodedata env) parameters step_content in
  ids <> [] ->
  llm_config_get env t (u8 "llm_provider") (PyStr (u8 "dashscope"))
  = Return llm_provider ->
  llm_config_get env (t ++ [EvConfigGet (u8 "llm_provider") (PyStr (u8 "dashscope"))])
    (u8 "llm_model") (PyStr (u8 "qwen-plus"))
  = Return llm_model ->
  execute_stock_analysis_tool parameters step_content progress_callback env t
  = match for_enumerate 1 ids
            (stock_loop_body progress_callback llm_provider llm_model (length ids))
            [] env (t ++ config_reads) with
    | (Return all_analysis, t') => (Return (join (nl ++ nl) all_analysis), t')
    | (Raise e, t') => (Raise e, t')
    end.
Proof.
  intros ids Hne Hp Hm. subst ids.
  unfold execute_stock_analysis_tool. unfold bind at 1, get_unicodedata.
  destruct (_extract_stock_symbols (unicodedata env) parameters step_content)
    as [|code ids] eqn:Hids; [congruence|].
  unfold bind, session_llm_config_get, perform. rewrite Hp, Hm.
  unfold config_reads. rewrite <- !app_assoc.
  change ([?a] ++ [?b]) with [a; b]. cbn [length].
  match goal with
  | |- context [for_enumerate ?i ?l ?body ?acc env ?tr] =>
    destruct (for_enumerate i l body acc env tr) as [[all|e] t']
  end; reflexivity.
Qed.

End StockBatchMore.

Section StockBatchTheorems.

Variable env : environment.

(** X8. With a readable session configuration and at least one
    identifier, the stock handler either returns the join of one
    fragment per identifier, or raises the exception of a call of the
    progress callback that raised, that call being the last thing it
    did. A failing analysis never ends the batch; a failing callback
    does, and the fragments collected so far are lost. *)
Theorem stock_batch_all_or_nothing
  (parameters : parameters_obj) (step_content : pystr)
  (progress_callback : option callable) (t : trace) :
  llm_config_available env ->
  _extract_stock_symbols (unicodedata env) parameters step_content <> [] ->
  (exists fragments t',
     execute_stock_analysis_tool parameters step_content progress_callback env t
     = (Return (join (nl ++ nl) fragments), t')
     /\ length fragments
        = length (_extract_stock_symbols (unicodedata env) parameters step_content))
  \/
  (exists e cb t_call message progress,
     progress_callback = Some cb
     /\ call_progress env t_call cb message progress = Raise e
     /\ execute_stock_analysis_tool parameters step_content progress_callback env t
        = (Raise e, t_call ++ [EvProgress cb message progress])).
Proof.
  intros Hcfg Hne.
  destruct (Hcfg t (u8 "llm_provider") (PyStr (u8 "dashscope"))) as [llm_provider Hp].
  destruct (Hcfg (t ++ [EvConfigGet (u8 "llm_provider") (PyStr (u8 "dashscope"))])
              (u8 "llm_model") (PyStr (u8 "qwen-plus"))) as [llm_model Hm].
  rewrite (execute_stock_loop env parameters step_content progress_callback t
             llm_provider llm_model Hne Hp Hm).
  set (ids := _extract_stock_symbols (unicodedata env) parameters step_content).
  destruct (stock_loop_all_or_nothing env progress_callback llm_provider llm_model
              (length ids) ids 1 [] (t ++ config_reads))
    as [(fragments & dates & Hlen & _ & Hrun)
       |(e & cb & t_call & msg & q & Hcb & Hraise & _ & Hrun)];
    rewrite Hrun.
  - left. exists fragments. eexists. split; [reflexivity|exact Hlen].
  - right. by exists e, cb, t_call, msg, q.
Qed.

(** X9. The stock handler calls the analysis once per identifier, in
    the order of the extracted list, each time with the provider and
    the model read from the session configuration, the analyst list
    [fundamentals], research depth 1 and the market type of A-shares. *)
Theorem stock_batch_analysis_calls
  (parameters : parameters_obj) (step_content : pystr)
  (progress_callback : option callable) (t : trace) :
  progress_callback_returns env progress_callback ->
  llm_config_available env ->
  _extract_stock_symbols (unicodedata env) parameters step_content <> [] ->
  exists outcome provider model calls,
    execute_stock_analysis_tool parameters step_content progress_callback env t
    = (outcome, t ++ calls)
    /\ llm_config_get env t (u8 "llm_provider") (PyStr (u8 "dashscope"))
       = Return provider
    /\ llm_config_get env
         (t ++ [EvConfigGet (u8 "llm_provider") (PyStr (u8 "dashscope"))])
         (u8 "llm_model") (PyStr (u8 "qwen-plus"))
       = Return model
    /\ map stock_symbol (analysis_calls calls)
       = _extract_stock_symbols (unicodedata env) parameters step_content
    /\ Forall (fun args =>
         llm_provider args = provider
         /\ llm_model args = model
         /\ analysts args = [u8 "fundamentals"]
         /\ research_depth args = 1%Z
         /\ market_type args = u8 "A股")
       (analysis_calls calls).
Proof.
  intros Hcb Hcfg Hne.
  destruct (Hcfg t (u8 "llm_provider") (PyStr (u8 "dashscope"))) as [provider Hp].
  destruct (Hcfg (t ++ [EvConfigGet (u8 "llm_provider") (PyStr (u8 "dashscope"))])
              (u8 "llm_model") (PyStr (u8 "qwen-plus"))) as [model Hm].
  rewrite (execute_stock_loop env parameters step_content progress_callback t
             provider model Hne Hp Hm).
  set (ids := _extract_stock_symbols (unicodedata env) parameters step_content).
  destruct (stock_loop_run env progress_callback Hcb provider model (length ids) ids
              1 [] (t ++ config_reads))
    as (fragments & dates & Hlen & Hrun & _).
  rewrite Hrun, <- app_assoc.
  eexists _, provider, model, _. split; [reflexivity|].
  split; [exact Hp|]. split; [exact Hm|].
  change (analysis_calls (config_reads ++ ?l)) with (analysis_calls l).
  rewrite analysis_calls_batch. split.
  - rewrite map_map. simpl. change (map (fun x => x.1) ?l) with (l.*1).
    apply fst_zip. lia.
  - apply Forall_forall. intros args Hargs.
    apply list_elem_of_fmap in Hargs as ([code date] & -> & _). by simpl.
Qed.

End StockBatchTheorems.

(* ===================================================================== *)
(** * [run_fund_analysis] *)
(* ===================================================================== *)

Section FundAnalysis.

Variable env : environment.

Lemma fund_block_run (table : ak_table) (fund_symbol heading failed ending result : pystr)
  (t : trace) :
  let answer := akshare env t table fund_symbol in
  fund_block table fund_symbol heading failed ending result env t
  = (Return (result ++ fund_block_text heading failed ending answer),
     t ++ fund_block_events table fund_symbol answer).
Proof.
  intros answer. unfold fund_block, try_except, bind, ak, time_sleep, perform, ret.
  fold answer. unfold fund_block_events, fund_block_text.
  destruct answer as [text|e]; simpl; [|reflexivity].
  by rewrite <- app_assoc.
Qed.

Lemma fund_blocks_then_run {A : Type} (tables : list (ak_table * pystr * pystr * pystr))
  (fund_symbol : pystr) (k : pystr -> M A) :
  forall (result : pystr) (t : trace),
  let answers := fund_answers env t tables fund_symbol in
  fund_blocks_then tables fund_symbol result k env t
  = k (result ++ fund_text tables answers) env
      (t ++ fund_events tables fund_symbol answers).
Proof.
  induction tables as [|[[[table heading] failed] ending] tables IH];
    intros result t; simpl.
  - by rewrite !app_nil_r.
  - unfold bind. rewrite fund_block_run. rewrite IH.
    by rewrite <- !app_assoc.
Qed.

Lemma run_fund_analysis_blocks (fund_symbol : pystr) :
  run_fund_analysis fund_symbol
  = fund_blocks_then fund_tables fund_symbol (u8 "【基金代码】: " ++ fund_symbol ++ nl)
      (fun result =>
         bind (print result) (fun _ =>
         bind (dashscope_generation (u8 "qwen-plus-latest")
                 (fund_system_message fund_symbol)
                 (fund_user_prompt fund_symbol result)) (fun content =>
         bind (print content) (fun _ => ret content)))).
Proof.
  unfold run_fund_analysis, fund_tables, fund_user_prompt.
  cbn [fund_blocks_then]. reflexivity.
Qed.

(** The run of [run_fund_analysis]: the nine blocks, the print of the
    data, the one call of dashscope and the print of its answer. *)
Lemma run_fund_analysis_run (fund_symbol : pystr) (t : trace) :
  let answers := fund_answers env t fund_tables fund_symbol in
  let data := (u8 "【基金代码】: " ++ fund_symbol ++ nl) ++ fund_text fund_tables answers in
  let t1 := t ++ fund_events fund_tables fund_symbol answers ++ [EvPrint data] in
  let model := u8 "qwen-plus-latest" in
  let system_message := fund_system_message fund_symbol in
  let prompt := fund_user_prompt fund_symbol data in
  run_fund_analysis fund_symbol env t
  = match dashscope_content env t1 model system_message prompt with
    | Return content =>
      (Return content,
       t1 ++ [EvDashscope model system_message prompt; EvPrint content])
    | Raise e => (Raise e, t1 ++ [EvDashscope model system_message prompt])
    end.
Proof.
  intros answers data t1 model system_message prompt.
  rewrite run_fund_analysis_blocks, fund_blocks_then_run.
  unfold bind, print, dashscope_generation, perform, ret.
  rewrite <- app_assoc.
  change (dashscope_content env _ _ _ _)
    with (dashscope_content env t1 model system_message prompt).
  destruct (dashscope_content env t1 model system_message prompt) as [content|e];
    [|reflexivity].
  rewrite <- app_assoc. reflexivity.
Qed.

Lemma fund_answers_length (tables : list (ak_table * pystr * pystr * pystr))
  (fund_symbol : pystr) :
  forall t, length (fund_answers env t tables fund_symbol) = length tables.
Proof.
  induction tables as [|[[[table heading] failed] ending] tables IH]; intros t;
    simpl; [reflexivity|]. by rewrite IH.
Qed.

(** Every answer is akshare's answer to the query of its table, made
    where the trace shows it. *)
Lemma fund_answers_tied (tables : list (ak_table * pystr * pystr * pystr))
  (fund_symbol : pystr) :
  forall t,
  Forall2 (fun entry answer =>
    exists t_call,
      t `prefix_of` t_call
      /\ answer = akshare env t_call entry.1.1.1 fund_symbol
      /\ (t_call ++ [EvAkshare entry.1.1.1 fund_symbol]) `prefix_of`
           (t ++ fund_events tables fund_symbol
                   (fund_answers env t tables fund_symbol)))
    tables (fund_answers env t tables fund_symbol).
Proof.
  induction tables as [|[[[table heading] failed] ending] tables IH]; intros t;
    simpl; constructor.
  - exists t. split; [done|]. split; [reflexivity|].
    unfold fund_block_events. eexists.
    rewrite <- !app_assoc. simpl. reflexivity.
  - set (answer := akshare env t table fund_symbol).
    eapply Forall2_impl; [apply (IH (t ++ fund_block_events table fund_symbol answer))|].
    intros entry a (t_call & Hprefix & Ha & Hcall).
    exists t_call. rewrite <- app_assoc in Hcall.
    split; [|split; [exact Ha|exact Hcall]].
    etrans; [|exact Hprefix]. by apply prefix_app_r.
Qed.

Lemma akshare_calls_fund_events (tables : list (ak_table * pystr * pystr * pystr))
  (fund_symbol : pystr) :
  forall answers, length answers = length tables ->
  akshare_calls (fund_events tables fund_symbol answers)
  = map (fun entry => (entry.1.1.1, fund_symbol)) tables.
Proof.
  induction tables as [|[[[table heading] failed] ending] tables IH];
    intros [|answer answers] Hlen; try discriminate; [reflexivity|].
  simpl. unfold akshare_calls in *. rewrite flat_map_app.
  rewrite IH by (simpl in Hlen; lia). by destruct answer.
Qed.

Lemma seconds_slept_app (a b : trace) :
  seconds_slept (a ++ b) = (seconds_slept a + seconds_slept b)%nat.
Proof.
  induction a as [|ev a IH]; [reflexivity|].
  simpl. rewrite IH. destruct ev; lia.
Qed.

Lemma seconds_slept_fund_events (tables : list (ak_table * pystr * pystr * pystr))
  (fund_symbol : pystr) :
  forall answers, length answers = length tables ->
  seconds_slept (fund_events tables fund_symbol answers)
  = length (filter (fun answer => returned answer = true) answers).
Proof.
  induction tables as [|[[[table heading] failed] ending] tables IH];
    intros [|answer answers] Hlen; try discriminate; [reflexivity|].
  cbn [fund_events]. rewrite seconds_slept_app, IH by (simpl in Hlen; lia).
  rewrite filter_cons. by destruct answer.
Qed.

Lemma other_calls_fund_events (tables : list (ak_table * pystr * pystr * pystr))
  (fund_symbol : pystr) (answers : list (result pystr)) :
  progress_calls (fund_events tables fund_symbol answers) = []
  /\ dashscope_calls (fund_events tables fund_symbol answers) = [].
Proof.
  revert answers.
  induction tables as [|[[[table heading] failed] ending] tables IH];
    intros [|answer answers]; try done.
  cbn [fund_events]. unfold progress_calls, dashscope_calls in *.
  rewrite !flat_map_app. destruct (IH answers) as [-> ->].
  by destruct answer.
Qed.

(** What akshare answered stands in the text the blocks build. *)
Lemma fund_text_contains (tables : list (ak_table * pystr * pystr * pystr)) :
  forall answers, length answers = length tables ->
  Forall (fun answer => contains (fund_text tables answers) (answer_text answer))
         answers.
Proof.
  induction tables as [|[[[table heading] failed] ending] tables IH];
    intros [|answer answers] Hlen; try discriminate; constructor.
  - cbn [fund_text]. apply contains_append.
    unfold fund_block_text, answer_text.
    destruct answer as [text|e]; apply contains_prepend, contains_append,
      contains_refl.
  - eapply Forall_impl; [apply IH; simpl in Hlen; lia|].
    intros a Ha. cbn [fund_text]. by apply contains_prepend.
Qed.

End FundAnalysis.

Section FundAnalysisTheorems.

Variable env : environment.

Lemma fund_prompt_contains_symbol (fund_symbol data : pystr) :
  contains (fund_user_prompt fund_symbol data) fund_symbol.
Proof.
  unfold fund_user_prompt.
  apply contains_append.
  do 2 apply contains_prepend. apply contains_append, contains_refl.
Qed.

Lemma fund_prompt_contains_data (fund_symbol data x : pystr) :
  contains data x -> contains (fund_user_prompt fund_symbol data) x.
Proof. intros H. unfold fund_user_prompt. by apply contains_prepend. Qed.

(** X12. [run_fund_analysis] guards every fetch of a table but not
    the call of the model: it returns exactly the content the model
    answers and raises exactly when that one call raises, whatever the
    nine fetches did. The prompt of the call names the fund. *)
Theorem run_fund_analysis_answer (fund_symbol : pystr) (t : trace) :
  exists t_call prompt,
    t `prefix_of` t_call
    /\ contains prompt fund_symbol
    /\ run_fund_analysis fund_symbol env t
       = match dashscope_content env t_call (u8 "qwen-plus-latest")
                 (fund_system_message fund_symbol) prompt with
         | Return content =>
           (Return content,
            t_call ++ [EvDashscope (u8 "qwen-plus-latest")
                         (fund_system_message fund_symbol) prompt;
                       EvPrint content])
         | Raise e =>
           (Raise e,
            t_call ++ [EvDashscope (u8 "qwen-plus-latest")
                         (fund_system_message fund_symbol) prompt])
         end.
Proof.
  eexists _, _. split; [|split; [|apply run_fund_analysis_run]].
  - by apply prefix_app_r.
  - apply fund_prompt_contains_symbol.
Qed.

(** The calls [run_fund_analysis] adds to the trace. *)
Lemma run_fund_analysis_calls (fund_symbol : pystr) (t : trace) :
  let answers := fund_answers env t fund_tables fund_symbol in
  let data := (u8 "【基金代码】: " ++ fund_symbol ++ nl) ++ fund_text fund_tables answers in
  let prompt := fund_user_prompt fund_symbol data in
  exists outcome tail,
    run_fund_analysis fund_symbol env t
    = (outcome,
       t ++ fund_events fund_tables fund_symbol answers
         ++ EvPrint data
         :: EvDashscope (u8 "qwen-plus-latest") (fund_system_message fund_symbol) prompt
         :: tail)
    /\ (tail = [] \/ exists content, tail = [EvPrint content]).
Proof.
  intros answers data prompt. rewrite run_fund_analysis_run.
  fold answers. fold data. fold prompt.
  destruct (dashscope_content env _ _ _ _) as [content|e].
  - exists (Return content), [EvPrint content].
    split; [by rewrite <- !app_assoc|]. right. by exists content.
  - exists (Raise e), []. split; [by rewrite <- !app_assoc|]. by left.
Qed.

(** X13. For every behaviour of the outside world,
    [run_fund_analysis] fetches the nine tables once each, in the
    order of the source and for the fund given, calls the model once
    with the model name [qwen-plus-latest], never calls a progress
    callback, and sleeps for at most nine seconds. *)
Theorem run_fund_analysis_queries (fund_symbol : pystr) (t : trace) :
  exists outcome calls prompt,
    run_fund_analysis fund_symbol env t = (outcome, t ++ calls)
    /\ akshare_calls calls
       = [ (fund_individual_basic_info_xq, fund_symbol);
           (fund_rating_all, fund_symbol);
           (fund_individual_achievement_xq, fund_symbol);
           (fund_value_estimation_em, fund_symbol);
           (fund_individual_analysis_xq, fund_symbol);
           (fund_individual_profit_probability_xq, fund_symbol);
           (fund_individual_detail_hold_xq, fund_symbol);
           (fund_portfolio_industry_allocation_em, fund_symbol);
           (fund_portfolio_hold_em, fund_symbol) ]
    /\ dashscope_calls calls
       = [ (u8 "qwen-plus-latest", fund_system_message fund_symbol, prompt) ]
    /\ progress_calls calls = []
    /\ (seconds_slept calls <= 9)%nat.
Proof.
  destruct (run_fund_analysis_calls fund_symbol t) as (outcome & tail & Hrun & Htail).
  set (answers := fund_answers env t fund_tables fund_symbol) in *.
  assert (Hlen : length answers = length fund_tables).
  { apply fund_answers_length. }
  eexists outcome, _, _. split; [exact Hrun|].
  destruct (other_calls_fund_events fund_tables fund_symbol answers) as [Hp Hd].
  unfold akshare_calls, dashscope_calls, progress_calls in *.
  rewrite !flat_map_app, seconds_slept_app.
  rewrite Hp, Hd.
  pose proof (akshare_calls_fund_events fund_tables fund_symbol answers Hlen) as Hak.
  unfold akshare_calls in Hak. rewrite Hak.
  rewrite seconds_slept_fund_events by exact Hlen.
  pose proof (length_filter (fun answer => returned answer = true) answers) as Hle.
  rewrite Hlen in Hle. change (length fund_tables) with 9%nat in Hle.
  destruct Htail as [->|[content ->]]; repeat split; simpl; lia.
Qed.

(** X14. The prompt sent to the model carries what the fetches
    gave: for each of the nine tables the text akshare returned or,
    when the fetch raised, the text of the exception; and the seconds
    slept are the number of fetches that returned. *)
Theorem run_fund_analysis_prompt (fund_symbol : pystr) (t : trace) :
  exists outcome calls answers prompt,
    run_fund_analysis fund_symbol env t = (outcome, t ++ calls)
    /\ Forall2 (fun table answer =>
         exists t_call,
           answer = akshare env t_call table fund_symbol
           /\ (t_call ++ [EvAkshare table fund_symbol]) `prefix_of` (t ++ calls))
         [ fund_individual_basic_info_xq; fund_rating_all;
           fund_individual_achievement_xq; fund_value_estimation_em;
           fund_individual_analysis_xq; fund_individual_profit_probability_xq;
           fund_individual_detail_hold_xq; fund_portfolio_industry_allocation_em;
           fund_portfolio_hold_em ]
         answers
    /\ dashscope_calls calls
       = [ (u8 "qwen-plus-latest", fund_system_message fund_symbol, prompt) ]
    /\ contains prompt fund_symbol
    /\ Forall (fun answer => contains prompt (answer_text answer)) answers
    /\ seconds_slept calls
       = length (filter (fun answer => returned answer = true) answers).
Proof.
  destruct (run_fund_analysis_calls fund_symbol t) as (outcome & tail & Hrun & Htail).
  set (answers := fund_answers env t fund_tables fund_symbol) in *.
  assert (Hlen : length answers = length fund_tables).
  { apply fund_answers_length. }
  eexists outcome, _, answers, _. split; [exact Hrun|].
  split; [|split; [|split; [|split]]].
  - change [fund_individual_basic_info_xq; fund_rating_all;
            fund_individual_achievement_xq; fund_value_estimation_em;
            fund_individual_analysis_xq; fund_individual_profit_probability_xq;
            fund_individual_detail_hold_xq; fund_portfolio_industry_allocation_em;
            fund_portfolio_hold_em]
      with ((fun entry : ak_table * pystr * pystr * pystr => entry.1.1.1)
              <$> fund_tables).
    apply Forall2_fmap_l.
    eapply Forall2_impl; [apply (fund_answers_tied env fund_tables fund_symbol t)|].
    intros entry a (t_call & _ & Ha & Hcall).
    exists t_call. split; [exact Ha|].
    rewrite app_assoc. by apply prefix_app_r.
  - destruct (other_calls_fund_events fund_tables fund_symbol answers) as [_ Hd].
    unfold dashscope_calls in *. rewrite flat_map_app, Hd.
    by destruct Htail as [->|[content ->]].
  - apply fund_prompt_contains_symbol.
  - eapply Forall_impl; [apply (fund_text_contains fund_tables answers Hlen)|].
    intros a Ha. by apply fund_prompt_contains_data, contains_prepend.
  - rewrite seconds_slept_app, seconds_slept_fund_events by exact Hlen.
    destruct Htail as [->|[content ->]]; simpl; lia.
Qed.

End FundAnalysisTheorems.

(* ===================================================================== *)
(** * The fund batch *)
(* ===================================================================== *)

Section FundBatch.

Variable env : environment.
Variable progress_callback : option callable.
Hypothesis callback_ok : progress_callback_returns env progress_callback.

Lemma run_fund_analysis_extends (fund_symbol : pystr) (t : trace) :
  exists calls,
    snd (run_fund_analysis fund_symbol env t) = t ++ calls
    /\ progress_calls calls = [].
Proof.
  destruct (run_fund_analysis_calls env fund_symbol t)
    as (outcome & tail & Hrun & Htail).
  rewrite Hrun. eexists. split; [reflexivity|].
  destruct (other_calls_fund_events fund_tables fund_symbol
              (fund_answers env t fund_tables fund_symbol)) as [Hp _].
  unfold progress_calls in *. rewrite flat_map_app, Hp.
  by destruct Htail as [->|[content ->]].
Qed.

(** The guarded analysis of one turn, for any analysis [m]. *)
Lemma guarded_analysis_run (m : M pystr) (code : pystr)
  (all_analysis : list pystr) (t : trace) :
  bind (try_except (bind m (fun analysis_result => ret (inl analysis_result)))
                   (fun e => ret (inr e)))
       (fun outcome : pystr + exn =>
          match outcome with
          | inr e => ret (all_analysis ++ [fund_failure_fragment code e])
          | inl analysis_result =>
            ret (all_analysis ++ [fund_success_fragment code analysis_result])
          end) env t
  = (Return (all_analysis ++ [fund_fragment code (fst (m env t))]), snd (m env t)).
Proof.
  unfold bind, try_except, ret.
  destruct (m env t) as [[r|e] t2]; cbn [fst snd fund_fragment]; reflexivity.
Qed.

(** One turn of the fund loop. *)
Lemma fund_loop_body_turn (total i : nat) (code : pystr)
  (all_analysis : list pystr) (t : trace) :
  let t1 := t ++ progress_event progress_callback
                   (fund_progress_message code i total) (progress_of i total) in
  fund_loop_body progress_callback total i code all_analysis env t
  = (Return (all_analysis
             ++ [fund_fragment code (fst (run_fund_analysis code env t1))]),
     snd (run_fund_analysis code env t1)).
Proof using callback_ok.
  intros t1. unfold fund_loop_body. unfold bind at 1.
  rewrite (run_progress env progress_callback callback_ok). fold t1.
  apply (guarded_analysis_run (run_fund_analysis code)).
Qed.

(** The fund loop: one fragment per identifier, in order, and one call
    of the callback per identifier. *)
Lemma fund_loop_run (total : nat) (ids : list pystr) :
  forall (i0 : nat) (all_analysis : list pystr) (t : trace),
  exists fragments calls,
    for_enumerate i0 ids (fund_loop_body progress_callback total) all_analysis env t
    = (Return (all_analysis ++ fragments), t ++ calls)
    /\ Forall2 (fun code fragment =>
         exists t_call,
           t `prefix_of` t_call
           /\ fragment = fund_fragment code (fst (run_fund_analysis code env t_call)))
         ids fragments
    /\ progress_calls calls = fund_progress_expected progress_callback total i0 ids.
Proof using callback_ok.
  induction ids as [|code ids IH]; intros i0 all_analysis t.
  - exists [], []. simpl. unfold ret, fund_progress_expected.
    rewrite !app_nil_r. repeat split; auto. by destruct progress_callback.
  - simpl. unfold bind. rewrite fund_loop_body_turn.
    set (message := fund_progress_message code i0 total).
    set (t1 := t ++ progress_event progress_callback message (progress_of i0 total)).
    destruct (run_fund_analysis_extends code t1) as (calls1 & Ht2 & Hno).
    rewrite Ht2.
    set (fragment := fund_fragment code (fst (run_fund_analysis code env t1))).
    destruct (IH (S i0) (all_analysis ++ [fragment]) (t1 ++ calls1))
      as (fragments & calls & Hrun & Hall & Hprogress).
    exists (fragment :: fragments),
      (progress_event progress_callback message (progress_of i0 total)
       ++ calls1 ++ calls).
    rewrite Hrun. subst t1. rewrite <- !app_assoc.
    split; [reflexivity|]. split.
    + constructor.
      * eexists. split; [|reflexivity]. by apply prefix_app_r.
      * eapply Forall2_impl; [exact Hall|].
        intros c f (t_call & Hprefix & Hf). exists t_call. split; [|exact Hf].
        etrans; [|exact Hprefix]. rewrite <- app_assoc. by apply prefix_app_r.
    + unfold progress_calls in *. rewrite !flat_map_app, Hno, Hprogress.
      unfold fund_progress_expected, progress_event.
      by destruct progress_callback.
Qed.

(** The whole fund handler on a non-empty extraction. *)
Lemma execute_fund_run (parameters : parameters_obj) (step_content : pystr)
  (t : trace) :
  llm_config_available env ->
  _extract_fund_symbols (unicodedata env) parameters step_content <> [] ->
  exists fragments calls,
    let ids := _extract_fund_symbols (unicodedata env) parameters step_content in
    execute_fund_analysis_tool parameters step_content progress_callback env t
    = (Return (join (nl ++ nl) fragments), t ++ config_reads ++ calls)
    /\ Forall2 (fun code fragment =>
         exists t_call,
           t `prefix_of` t_call
           /\ fragment = fund_fragment code (fst (run_fund_analysis code env t_call)))
         ids fragments
    /\ progress_calls calls = fund_progress_expected progress_callback (length ids) 1 ids.
Proof using callback_ok.
  intros Hcfg Hne.
  unfold execute_fund_analysis_tool. unfold bind at 1, get_unicodedata.
  destruct (_extract_fund_symbols (unicodedata env) parameters step_content)
    as [|code ids] eqn:Hids; [congruence|].
  set (k1 := u8 "llm_provider"). set (d1 := PyStr (u8 "dashscope")).
  set (k2 := u8 "llm_model"). set (d2 := PyStr (u8 "qwen-plus")).
  destruct (Hcfg t k1 d1) as [llm_provider Hp].
  destruct (Hcfg (t ++ [EvConfigGet k1 d1]) k2 d2) as [llm_model Hm].
  destruct (fund_loop_run (length (code :: ids)) (code :: ids)
              1 [] ((t ++ [EvConfigGet k1 d1]) ++ [EvConfigGet k2 d2]))
    as (fragments & calls & Hrun & Hall & Hprogress).
  exists fragments, calls.
  assert (Ht : (t ++ [EvConfigGet k1 d1]) ++ [EvConfigGet k2 d2] = t ++ config_reads).
  { by rewrite <- app_assoc. }
  rewrite Ht in Hrun, Hall. rewrite <- !app_assoc in Hrun.
  split; [|split; [|exact Hprogress]].
  - unfold bind, session_llm_config_get, perform. rewrite Hp, Hm, Ht.
    rewrite Hrun. reflexivity.
  - eapply Forall2_impl; [exact Hall|].
    intros c f (t_call & Hprefix & Hf). exists t_call. split; [|exact Hf].
    etrans; [|exact Hprefix]. by apply prefix_app_r.
Qed.

End FundBatch.

Section FundBatchTheorems.

Variable env : environment.


Lemma fund_fractions (cb : callable) (total : nat) (ids : list pystr) (i0 : nat) :
  map snd (zip_with (fun i code => (cb, fund_progress_message code i total,
                                    progress_of i total))
                    (seq i0 (length ids)) ids)
  = map (fun i => progress_of i total) (seq i0 (length ids)).
Proof.
  revert i0. induction ids as [|code ids IH]; intros i0; [reflexivity|].
  simpl. f_equal. apply IH.
Qed.

(** X11. With a progress callback passed that returns, and a session
    configuration to read, the fund handler calls the callback once per
    identifier, in order, with the message made of the label, a space,
    the identifier and [i/total] in fullwidth brackets, and with the
    fraction [i / total]; the fractions strictly increase and the last
    one equals 1. *)
Theorem fund_progress_once_per_identifier
  (parameters : parameters_obj) (step_content : pystr)
  (cb : callable) (t : trace) :
  progress_callback_returns env (Some cb) ->
  llm_config_available env ->
  _extract_fund_symbols (unicodedata env) parameters step_content <> [] ->
  let ids := _extract_fund_symbols (unicodedata env) parameters step_content in
  let total := length ids in
  exists outcome calls,
    let message (i : nat) (code : pystr) : pystr :=
      u8 "正在分析基金 " ++ code ++ u8 "（" ++ str_nat i ++ u8 "/" ++ str_nat total
      ++ u8 "）" in
    let fraction (i : nat) : Q := Z.of_nat i # Pos.of_nat total in
    execute_fund_analysis_tool parameters step_content (Some cb) env t
    = (outcome, t ++ calls)
    /\ progress_calls calls
       = zip_with (fun i code => (cb, message i code, fraction i)) (seq 1 total) ids
    /\ Forall (fun i =>
         (fraction i == inject_Z (Z.of_nat i) / inject_Z (Z.of_nat total))%Q)
         (seq 1 total)
    /\ StronglySorted Qlt (map snd (progress_calls calls))
    /\ exists last_fraction,
         last (map snd (progress_calls calls)) = Some last_fraction
         /\ (last_fraction == 1)%Q.
Proof.
  intros Hcb Hcfg Hne ids total.
  destruct (execute_fund_run env (Some cb) Hcb parameters step_content t Hcfg Hne)
    as (fragments & calls & Hrun & _ & Hprogress).
  fold ids in Hprogress. fold total in Hprogress.
  unfold fund_progress_expected in Hprogress.
  assert (Hpos : (0 < total)%nat).
  { unfold total, ids.
    destruct (_extract_fund_symbols _ _ _); [congruence|simpl; lia]. }
  eexists _, (config_reads ++ calls). cbv beta zeta.
  split; [exact Hrun|].
  change (progress_calls (config_reads ++ calls)) with (progress_calls calls).
  split; [exact Hprogress|].
  split.
  { apply Forall_forall. intros i _.
    assert (Htotal : Z.of_nat total = Z.pos (Pos.of_nat total)).
    { rewrite <- positive_nat_Z. by rewrite Nat2Pos.id by lia. }
    rewrite Htotal. apply Qmake_Qdiv. }
  rewrite Hprogress.
  rewrite (fund_fractions cb total ids 1). fold total.
  split; [by apply progress_strictly_increasing|].
  exists (progress_of total total).
  split; [by apply progress_last|by apply progress_of_full].
Qed.

(** X7. Both batch handlers read the session configuration outside
    every [try]: when there is an identifier and one of the two reads
    raises, the handler raises that exception, and up to then it has
    made no call but reads of the configuration: no progress call and
    no analysis. *)
Theorem batch_needs_session_config
  (parameters : parameters_obj) (step_content : pystr)
  (progress_callback : option callable) (t : trace) (e : exn) :
  llm_config_get env t (u8 "llm_provider") (PyStr (u8 "dashscope")) = Raise e
  \/ (exists v,
        llm_config_get env t (u8 "llm_provider") (PyStr (u8 "dashscope")) = Return v
        /\ llm_config_get env
             (t ++ [EvConfigGet (u8 "llm_provider") (PyStr (u8 "dashscope"))])
             (u8 "llm_model") (PyStr (u8 "qwen-plus")) = Raise e) ->
  (_extract_stock_symbols (unicodedata env) parameters step_content <> [] ->
   exists calls,
     execute_stock_analysis_tool parameters step_content progress_callback env t
     = (Raise e, t ++ calls)
     /\ Forall (fun ev => exists key default, ev = EvConfigGet key default) calls)
  /\
  (_extract_fund_symbols (unicodedata env) parameters step_content <> [] ->
   exists calls,
     execute_fund_analysis_tool parameters step_content progress_callback env t
     = (Raise e, t ++ calls)
     /\ Forall (fun ev => exists key default, ev = EvConfigGet key default) calls).
Proof.
  intros Hfail. split; intros Hne.
  - unfold execute_stock_analysis_tool. unfold bind at 1, get_unicodedata.
    destruct (_extract_stock_symbols (unicodedata env) parameters step_content)
      as [|code ids]; [congruence|].
    unfold bind, session_llm_config_get, perform.
    destruct Hfail as [-> | (v & -> & ->)].
    + eexists [_]. split; [reflexivity|]. repeat constructor. eauto.
    + eexists [_; _]. rewrite <- app_assoc. split; [reflexivity|].
      repeat constructor; eauto.
  - unfold execute_fund_analysis_tool. unfold bind at 1, get_unicodedata.
    destruct (_extract_fund_symbols (unicodedata env) parameters step_content)
      as [|code ids]; [congruence|].
    unfold bind, session_llm_config_get, perform.
    destruct Hfail as [-> | (v & -> & ->)].
    + eexists [_]. split; [reflexivity|]. repeat constructor. eauto.
    + eexists [_; _]. rewrite <- app_assoc. split; [reflexivity|].
      repeat constructor; eauto.
Qed.

End FundBatchTheorems.

(* ===================================================================== *)
(** * The dispatcher and the registry *)
(* ===================================================================== *)

Section DispatchMore.

Variable self : ToolExecutor.

Lemma dict_get_Some {V : Type} (d : list (pystr * V)) (key : pystr) :
  key ∈ map fst d -> exists v, dict_get d key = Some v /\ (key, v) ∈ d.
Proof.
  induction d as [|[k v] d IH]; simpl; intros Hin.
  - by apply elem_of_nil in Hin.
  - destruct (decide (k = key)) as [->|Hne].
    + exists v. split; [reflexivity|left].
    + apply elem_of_cons in Hin as [Heq|Hin]; [congruence|].
      destruct (IH Hin) as (v' & Hget & Hv'). exists v'. split; [exact Hget|by right].
Qed.

(** X6. Every name [get_available_tools] lists is dispatched by
    [execute] to a method registered under that name: the report of
    the method is returned as it is, and an exception of the method
    becomes the error text that carries the name and [str(e)]. *)
Theorem available_tools_are_dispatched
  (tool_name : pystr) (parameters : parameters_obj) (step_content : pystr)
  (progress_callback : option callable) (env : environment) (t : trace) :
  tool_name ∈ get_available_tools self ->
  exists tool,
    (tool_name, tool) ∈ tools self
    /\ execute self tool_name parameters step_content progress_callback env t
       = match tool parameters step_content progress_callback env t with
         | (Return report, t') => (Return report, t')
         | (Raise e, t') =>
           (Return (u8 "执行工具 '" ++ tool_name ++ u8 "' 时发生错误: " ++ exn_str e), t')
         end.
Proof.
  intros Hin. destruct (dict_get_Some (tools self) tool_name Hin) as (tool & Hget & Hmem).
  exists tool. split; [exact Hmem|]. by apply execute_registered.
Qed.

End DispatchMore.

(* ===================================================================== *)
(** * The catalog of tools *)
(* ===================================================================== *)

Section Catalog.

Variable refl : reflection.

Lemma tool_blocks_length (items : list (pystr * tool_method)) (idx : nat) :
  length (tool_blocks refl idx items) = length items.
Proof.
  revert idx. induction items as [|[name tool] items IH]; intros idx; simpl;
    [reflexivity|]. by rewrite IH.
Qed.

Lemma tool_blocks_lookup (items : list (pystr * tool_method)) (idx i : nat)
  (name : pystr) (tool : tool_method) :
  items !! i = Some (name, tool) ->
  tool_blocks refl idx items !! i = Some (tool_block refl (idx + i) name tool).
Proof.
  revert idx i. induction items as [|[n f] items IH]; intros idx [|i] Hi;
    simpl in *; try discriminate.
  - injection Hi as -> ->. by rewrite Nat.add_0_r.
  - rewrite (IH (S idx) i Hi). f_equal. f_equal. lia.
Qed.

(** The lines of the parameters follow the signature. *)
Lemma param_lines_follow_signature (tool_func : function_obj) :
  Forall2 (fun param line => exists rest, line = u8 "   - " ++ param_name param ++ rest)
    (signature tool_func)
    (map param_line
       (md_parameters (get_tool_metadata (docstring_parse refl) tool_func))).
Proof.
  unfold get_tool_metadata. cbn [md_parameters].
  induction (signature tool_func) as [|param sig IH]; constructor; [|exact IH].
  eexists. unfold param_line, parameter_info_of. cbn [pi_name]. reflexivity.
Qed.

(** X15. The catalog of [generate_available_tools] is the title line
    followed by one block per registered tool, in the order of the
    registry, blocks separated by a blank line. The block of the tool
    at position [i] (from 0) opens with its number [i + 1] and its
    registered name, then the description line and the parameter
    heading, then one line per parameter of the method's signature, in
    the order of the signature, each starting with the parameter's
    name. *)
Theorem generate_available_tools_blocks (self : ToolExecutor) :
  exists blocks,
    generate_available_tools refl self
    = u8 "# 可用工具列表（含参数说明）" ++ nl ++ join (nl ++ nl) blocks
    /\ length blocks = length (tools self)
    /\ forall i name tool,
         tools self !! i = Some (name, tool) ->
         exists description lines,
           blocks !! i
           = Some (join nl ([ str_nat (S i) ++ u8 ". 工具名称：" ++ name;
                              u8 "   工具描述：" ++ description;
                              u8 "   参数列表：" ] ++ lines))
           /\ Forall2 (fun param line =>
                exists rest, line = u8 "   - " ++ param_name param ++ rest)
                (signature (inspect_method refl tool)) lines.
Proof.
  exists (tool_blocks refl 1 (tools self)).
  split; [unfold generate_available_tools; by rewrite <- app_assoc|].
  split; [apply tool_blocks_length|].
  intros i name tool Hi.
  eexists _, _. split.
  - rewrite (tool_blocks_lookup _ 1 i name tool Hi). reflexivity.
  - apply param_lines_follow_signature.
Qed.

Lemma contains_join_part (sep : pystr) (parts : list pystr) (part x : pystr) :
  part ∈ parts -> contains part x -> contains (join sep parts) x.
Proof.
  intros Hpart (a & b & ->).
  destruct (contains_join sep parts _ Hpart) as (pre & post & ->).
  exists (pre ++ a), (b ++ post). by rewrite <- !app_assoc.
Qed.

Lemma tool_blocks_elem (items : list (pystr * tool_method)) (idx : nat)
  (name : pystr) (tool : tool_method) :
  (name, tool) ∈ items ->
  exists i, tool_block refl i name tool ∈ tool_blocks refl idx items.
Proof.
  intros Hin. apply list_elem_of_lookup in Hin as [i Hi].
  exists (idx + i)%nat. apply list_elem_of_lookup. exists i.
  by apply tool_blocks_lookup.
Qed.

(** X16. The catalog names every registered tool and every
    parameter of every registered method. *)
Theorem generate_available_tools_lists_everything (self : ToolExecutor)
  (name : pystr) (tool : tool_method) :
  (name, tool) ∈ tools self ->
  contains (generate_available_tools refl self) name
  /\ forall param, param ∈ signature (inspect_method refl tool) ->
       contains (generate_available_tools refl self) (param_name param).
Proof.
  intros Hin.
  destruct (tool_blocks_elem (tools self) 1 name tool Hin) as [i Hblock].
  assert (Hlift : forall x, contains (tool_block refl i name tool) x ->
                            contains (generate_available_tools refl self) x).
  { intros x Hx. unfold generate_available_tools.
    apply contains_prepend. by apply (contains_join_part _ _ _ _ Hblock). }
  split.
  - apply Hlift. unfold tool_block.
    eapply contains_join_part; [left|].
    apply contains_prepend, contains_prepend, contains_refl.
  - intros param Hparam. apply Hlift. unfold tool_block.
    unfold get_tool_metadata. cbn [md_parameters md_description].
    match goal with
    | |- context [parameter_info_of ?d] => set (doc := d)
    end.
    eapply (contains_join_part _ _ (param_line (parameter_info_of doc param))).
    + apply elem_of_app. right.
      by do 2 apply list_elem_of_fmap_2.
    + unfold param_line, parameter_info_of. cbn [pi_name].
      apply contains_prepend, contains_append, contains_refl.
Qed.

End Catalog.

(* ===================================================================== *)
(** * Further statements on the samples *)
(* ===================================================================== *)

(** The comma is no word character in the tables of [unicode_excerpt]. *)
Lemma excerpt_comma_separates : is_w unicode_excerpt 44 = false.
Proof. vm_compute. reflexivity. Defined.

Lemma two_funds_extracted :
  _extract_fund_symbols (unicodedata sample_env) two_funds [] <> [].
Proof. vm_compute. discriminate. Defined.

(** X3 on the stocks of [two_stocks]: what the extractor returned is
    passed back with another step text. *)
Lemma extract_symbols_round_trip_witness :
  _extract_stock_symbols unicode_excerpt
    (Dict {[ u8 "stock_symbols" := PList [PyStr (u8 "600000"); PyStr (u8 "600036")] ]})
    (u8 "000001")
  = _extract_stock_symbols unicode_excerpt two_stocks [].
Proof.
  apply (proj1 (extract_symbols_round_trip unicode_excerpt excerpt_comma_separates
                  two_stocks []
                  {[ u8 "stock_symbols"
                     := PList [PyStr (u8 "600000"); PyStr (u8 "600036")] ]}
                  (u8 "000001"))).
  - exact two_stocks_extracted.
  - vm_compute. reflexivity.
Defined.

(** X4 on the list of [two_stocks]. *)
Lemma extract_symbols_list_union_witness :
  u8 "600036"
    ∈ _extract_stock_symbols unicode_excerpt
        (Dict {[ u8 "stock_symbols" := PList [PyStr (u8 "600036"); PyStr (u8 "600000")] ]})
        (u8 "000001")
  <-> exists item,
        item ∈ [PyStr (u8 "600036"); PyStr (u8 "600000")]
        /\ standalone_code unicode_excerpt (py_str item) (u8 "600036").
Proof.
  assert (Hne : [PyStr (u8 "600036"); PyStr (u8 "600000")] <> []) by discriminate.
  apply (proj1 (extract_symbols_list_union unicode_excerpt excerpt_comma_separates
                  {[ u8 "stock_symbols"
                     := PList [PyStr (u8 "600036"); PyStr (u8 "600000")] ]}
                  [PyStr (u8 "600036"); PyStr (u8 "600000")]
                  (u8 "000001") (u8 "600036") Hne)).
  vm_compute. reflexivity.
Defined.

(** X5 on [two_stocks] and the same stocks listed in another order. *)
Lemma extract_symbols_order_irrelevant_witness :
  _extract_stock_symbols unicode_excerpt
    (Dict {[ u8 "stock_symbols" := PList [PyStr (u8 "600036"); PyStr (u8 "600000")] ]})
    (u8 "000001")
  = _extract_stock_symbols unicode_excerpt
      (Dict {[ u8 "stock_symbols"
               := PList [PyStr (u8 "600000"); PyStr (u8 "600036"); PyStr (u8 "600000")] ]})
      (u8 "000001").
Proof.
  assert (Hsame : forall item : pyobj,
            item ∈ [PyStr (u8 "600036"); PyStr (u8 "600000")]
            <-> item ∈ [PyStr (u8 "600000"); PyStr (u8 "600036"); PyStr (u8 "600000")]).
  { intros item. rewrite !elem_of_cons, !elem_of_nil. tauto. }
  apply (proj1 (extract_symbols_order_irrelevant unicode_excerpt excerpt_comma_separates
                  _ _ _ _ (u8 "000001") Hsame));
    vm_compute; reflexivity.
Defined.

(** X6 on the registry of [__init__] and the fund tool. *)
Lemma available_tools_are_dispatched_witness :
  exists tool,
    (u8 "基金分析工具", tool) ∈ tools __init__
    /\ execute __init__ (u8 "基金分析工具") NotADict (u8 "000001") None sample_env []
       = match tool NotADict (u8 "000001") None sample_env [] with
         | (Return report, t') => (Return report, t')
         | (Raise e, t') =>
           (Return (u8 "执行工具 '" ++ u8 "基金分析工具" ++ u8 "' 时发生错误: "
                    ++ exn_str e), t')
         end.
Proof.
  apply (available_tools_are_dispatched __init__ (u8 "基金分析工具") NotADict
           (u8 "000001") None sample_env []).
  apply list_elem_of_further, list_elem_of_here.
Defined.

(** X7 on the two funds of [two_funds], without a session
    configuration. *)
Lemma batch_needs_session_config_witness :
  exists calls,
    execute_fund_analysis_tool two_funds [] (Some the_callback) no_config_env []
    = (Raise no_config_error, calls)
    /\ Forall (fun ev => exists key default, ev = EvConfigGet key default) calls.
Proof.
  apply (proj2 (batch_needs_session_config no_config_env two_funds []
                  (Some the_callback) [] no_config_error (or_introl eq_refl))).
  exact two_funds_extracted.
Defined.

(** X8 on the two stocks of [two_stocks]: the callback of [sample_env]
    returns, so the batch completes. *)
Lemma stock_batch_all_or_nothing_witness :
  exists fragments t',
    execute_stock_analysis_tool two_stocks [] (Some the_callback) sample_env []
    = (Return (join (nl ++ nl) fragments), t')
    /\ length fragments = 2%nat.
Proof.
  destruct (stock_batch_all_or_nothing sample_env two_stocks [] (Some the_callback) []
              sample_config_available two_stocks_extracted)
    as [(fragments & t' & Hrun & Hlen)
       |(e & cb & t_call & message & progress & _ & Hraise & _)].
  - exists fragments, t'. split; [exact Hrun|].
    rewrite Hlen. vm_compute. reflexivity.
  - discriminate Hraise.
Defined.

(** X9 on the two stocks of [two_stocks]. *)
Lemma stock_batch_analysis_calls_witness :
  exists outcome calls,
    execute_stock_analysis_tool two_stocks [] None sample_env [] = (outcome, calls)
    /\ map stock_symbol (analysis_calls calls) = [u8 "600000"; u8 "600036"].
Proof.
  destruct (stock_batch_analysis_calls sample_env two_stocks [] None []
              (sample_callback_returns None) sample_config_available
              two_stocks_extracted)
    as (outcome & provider & model & calls & Hrun & _ & _ & Hsymbols & _).
  exists outcome, calls. split; [exact Hrun|].
  rewrite Hsymbols. vm_compute. reflexivity.
Defined.


(** X11 on the two funds of [two_funds]: two calls of the callback. *)
Lemma fund_progress_once_per_identifier_witness :
  exists outcome calls,
    execute_fund_analysis_tool two_funds [] (Some the_callback) sample_env []
    = (outcome, calls)
    /\ map (fun call => (call.1.2, call.2)) (progress_calls calls)
       = [ (u8 "正在分析基金 290012（1/2）", 1 # 2);
           (u8 "正在分析基金 485119（2/2）", 2 # 2) ].
Proof.
  destruct (fund_progress_once_per_identifier sample_env two_funds [] the_callback []
              (sample_callback_returns (Some the_callback)) sample_config_available
              two_funds_extracted)
    as (outcome & calls & Hrun & Hcalls & _).
  exists outcome, calls. split; [exact Hrun|].
  rewrite Hcalls. vm_compute. reflexivity.
Defined.

(** X16 on the registry of [__init__]: the catalog names the fund tool
    and the parameter of its method. *)
Lemma generate_available_tools_lists_everything_witness :
  contains (generate_available_tools sample_reflection __init__) (u8 "基金分析工具")
  /\ contains (generate_available_tools sample_reflection __init__) (u8 "x").
Proof.
  assert (Hin : (u8 "基金分析工具", execute_fund_analysis_tool) ∈ tools __init__).
  { apply list_elem_of_further, list_elem_of_here. }
  destruct (generate_available_tools_lists_everything sample_reflection __init__
              (u8 "基金分析工具") execute_fund_analysis_tool Hin)
    as [Hname Hparams].
  split; [exact Hname|].
  apply (Hparams {| param_name := u8 "x"; annotation := None; param_default := None |}).
  apply list_elem_of_here.
Defined.
